(** * Universal Controller Script: control surfaces, note matcher, context reset

    A shallow embedding of
    - [src/control_surfaces/controls/control_surface.py] (class [ControlSurface]),
    - [src/devices/control_generators/notes.py] (class [NoteMatcher]),
    - [common/contextmanager.py] (the device context and its reset protocol),
    and the properties of them that the specification states.

    Python objects are records, mutation is explicit state passing, a raised
    exception is the [Raise] case of [Result], and Python's [float] is the
    kernel's IEEE-754 binary64 [PrimFloat.float]. *)

From Stdlib Require Import NArith ZArith Bool Floats Lia Ascii DecimalString DecimalPos DecimalZ.
From stdpp Require Import base list strings.

(* Decimal literals denote the nearest binary64 value, as they do in Python. *)
#[local] Set Warnings "-inexact-float".

Local Open Scope float_scope.
Local Open Scope string_scope.
Local Open Scope list_scope.

(** ** Python exceptions and results *)

Inductive PyExc : Type :=
| ValueError (msg : string)
| IndexError
| Exception (msg : string)
| ContextResetException (reason : string).

Inductive Result (A : Type) : Type :=
| Ok (a : A)
| Raise (e : PyExc).
Arguments Ok {A} a.
Arguments Raise {A} e.

(** ** Floats: the comparisons the source uses *)

Module PyFloat.

(** [a <= b] *)
Definition le (a b : float) : bool := PrimFloat.leb a b.
(** [a < b] *)
Definition lt (a b : float) : bool := PrimFloat.ltb a b.
(** [a != b] *)
Definition ne (a b : float) : bool := negb (PrimFloat.eqb a b).
(** [a - b] *)
Definition sub (a b : float) : float := PrimFloat.sub a b.

End PyFloat.

(** ** Raw events *)

(** An event is a standard message (a status byte and two data bytes, each a
    natural number) or a system-exclusive one. *)
Inductive EventData : Type :=
| StandardEvent (status data1 data2 : N)
| SysexEvent (sysex : list N).

(** Interface [IEventPattern]: one method, [matchEvent]. *)
Record IEventPattern : Type := { matchEvent : EventData -> bool }.

(** Interface [IValueStrategy]: the value of an event, given the control's
    previous value, and the channel of an event. *)
Record IValueStrategy : Type := {
  getValueFromEvent : EventData -> float -> float;
  getChannelFromEvent : EventData -> Z
}.

(** ** Collaborators that the source imports from files outside [src/] *)

(** Modelled from the spec: the settings collaborator is "a key-lookup
    capability, get(key) -> value"; the class [Settings] is not in [src/]. *)
Record Settings : Type := { get : string -> float }.

(** The colour type, the null pattern and strategy that [__init__] defaults
    to, and the settings a new context starts with are not in [src/]; the
    development is parametric in them. *)
Class Collaborators : Type := {
  Color : Type;
  Color_eq_dec :: EqDecision Color;
  Color_new : Color;
  NullPattern : IEventPattern;
  NullEventStrategy : IValueStrategy;
  Settings_new : Settings
}.

(** ** The device context ([common/contextmanager.py]) *)

(** A [DeviceContextManager] object: [ctx_id] is the identity of the Python
    object (two constructions never give the same one). *)
Record DeviceContextManager : Type := {
  ctx_id : nat;
  settings : Settings
}.

(** [logger.verbosity]: the one level this module logs at. *)
Inductive Verbosity : Type := WARNING.

Record LogEntry : Type := {
  log_category : string;
  log_message : string;
  log_verbosity : Verbosity
}.

(** The module's global state: the variable [_context], the allocator of
    object identities and what [logger.log] has received. *)
Record Globals : Type := {
  _context : option DeviceContextManager;
  next_id : nat;
  logged : list LogEntry
}.

(** Computations over the globals that may raise. *)
Definition M (A : Type) : Type := Globals -> Result A * Globals.

#[export] Instance M_ret : MRet M := fun A (a : A) g => (Ok a, g).

(** Sequencing: an exception skips the rest and keeps the globals as they
    were when it was raised. *)
#[export] Instance M_bind : MBind M := fun A B (k : A -> M B) (m : M A) g =>
  match m g with
  | (Ok a, g') => k a g'
  | (Raise e, g') => (Raise e, g')
  end.

Section ContextManager.
Context `{Collaborators}.

(** [DeviceContextManager()] *)
Definition DeviceContextManager_new : M DeviceContextManager :=
  fun g =>
    (Ok {| ctx_id := next_id g; settings := Settings_new |},
     {| _context := _context g; next_id := S (next_id g); logged := logged g |}).

Definition set_context (c : DeviceContextManager) : M unit :=
  fun g => (Ok tt, {| _context := Some c; next_id := next_id g; logged := logged g |}).

Definition logger_log (category message : string) (verbosity : Verbosity)
    : M unit :=
  fun g => (Ok tt, {| _context := _context g; next_id := next_id g;
                      logged := logged g ++ [{| log_category := category;
                                                log_message := message;
                                                log_verbosity := verbosity |}] |}).

Definition raise {A} (e : PyExc) : M A := fun g => (Raise e, g).

Definition getContext : M DeviceContextManager :=
  fun g => match _context g with
           | None => (Raise (Exception "Context isn't initialised"), g)
           | Some c => (Ok c, g)
           end.

(** [resetContext] never returns: its result type is empty. *)
Definition resetContext (reason : string) : M Empty_set :=
  logger_log "bootstrap.context.reset"
             ("Device context reset with reason: " ++ reason)
             WARNING ;;
  c ← DeviceContextManager_new;
  set_context c ;;
  raise (ContextResetException reason).

Definition _initContext : M unit :=
  c ← DeviceContextManager_new;
  set_context c.

(** The decorator: the wrapper calls [func], drops what it returns and
    swallows a [ContextResetException]; any other exception goes through. *)
Definition catchContextResetException {A} (func : M A) : M unit :=
  fun g => match func g with
           | (Ok _, g') => (Ok tt, g')
           | (Raise (ContextResetException _), g') => (Ok tt, g')
           | (Raise e, g') => (Raise e, g')
           end.

(** The globals before the module body runs, and after it has run
    ([_context = None] then [_initContext()]). *)
Definition globals_at_load : Globals :=
  {| _context := None; next_id := 0; logged := [] |}.

Definition globals_after_import : Globals := snd (_initContext globals_at_load).

(** Object identities are handed out in increasing order: the live context
    has one that the allocator has already passed. *)
Definition Globals_wf (g : Globals) : Prop :=
  forall c, _context g = Some c -> ctx_id c < next_id g.

End ContextManager.

(** ** Control surfaces ([control_surfaces/controls/control_surface.py]) *)

(** What a subclass overrides statically: [isPress]. *)
Record SurfaceClass : Type := { isPress : float -> bool }.

(** The base class: [isPress] returns [False]. *)
Definition ControlSurface_class : SurfaceClass := {| isPress := fun _ => false |}.

(** The manager interfaces and their dummy implementations are imported from
    [..managers], which is not in [src/]; [__init__] only stores them. *)
Inductive IAnnotationManager : Type := DummyAnnotationManager | AnnotationManager (n : nat).
Inductive IColorManager : Type := DummyColorManager | ColorManager (n : nat).
Inductive IValueManager : Type := DummyValueManager | ValueManager (n : nat).

Section Surface.
Context `{Collaborators}.

Record ControlSurface : Type := mkControlSurface {
  cls : SurfaceClass;
  _pattern : IEventPattern;
  _color : Color;
  _annotation : string;
  _value : float;
  _value_strategy : IValueStrategy;
  _coord : Z * Z;
  _needs_update : bool;
  _got_update : bool;
  _color_changed : bool;
  _annotation_changed : bool;
  _value_changed : bool;
  __annotation_manager : option IAnnotationManager;
  __color_manager : option IColorManager;
  __value_manager : option IValueManager;
  _press : float;
  _tweak : float
}.

(** Attribute assignment [self.<field> = x], one function per attribute that
    the methods assign. *)
Definition set_color (x : Color) (self : ControlSurface) : ControlSurface :=
  {| cls := cls self;
     _pattern := _pattern self;
     _color := x;
     _annotation := _annotation self;
     _value := _value self;
     _value_strategy := _value_strategy self;
     _coord := _coord self;
     _needs_update := _needs_update self;
     _got_update := _got_update self;
     _color_changed := _color_changed self;
     _annotation_changed := _annotation_changed self;
     _value_changed := _value_changed self;
     __annotation_manager := __annotation_manager self;
     __color_manager := __color_manager self;
     __value_manager := __value_manager self;
     _press := _press self;
     _tweak := _tweak self |}.

Definition set_annotation (x : string) (self : ControlSurface) : ControlSurface :=
  {| cls := cls self;
     _pattern := _pattern self;
     _color := _color self;
     _annotation := x;
     _value := _value self;
     _value_strategy := _value_strategy self;
     _coord := _coord self;
     _needs_update := _needs_update self;
     _got_update := _got_update self;
     _color_changed := _color_changed self;
     _annotation_changed := _annotation_changed self;
     _value_changed := _value_changed self;
     __annotation_manager := __annotation_manager self;
     __color_manager := __color_manager self;
     __value_manager := __value_manager self;
     _press := _press self;
     _tweak := _tweak self |}.

Definition set_value (x : float) (self : ControlSurface) : ControlSurface :=
  {| cls := cls self;
     _pattern := _pattern self;
     _color := _color self;
     _annotation := _annotation self;
     _value := x;
     _value_strategy := _value_strategy self;
     _coord := _coord self;
     _needs_update := _needs_update self;
     _got_update := _got_update self;
     _color_changed := _color_changed self;
     _annotation_changed := _annotation_changed self;
     _value_changed := _value_changed self;
     __annotation_manager := __annotation_manager self;
     __color_manager := __color_manager self;
     __value_manager := __value_manager self;
     _press := _press self;
     _tweak := _tweak self |}.

Definition set_needs_update (x : bool) (self : ControlSurface) : ControlSurface :=
  {| cls := cls self;
     _pattern := _pattern self;
     _color := _color self;
     _annotation := _annotation self;
     _value := _value self;
     _value_strategy := _value_strategy self;
     _coord := _coord self;
     _needs_update := x;
     _got_update := _got_update self;
     _color_changed := _color_changed self;
     _annotation_changed := _annotation_changed self;
     _value_changed := _value_changed self;
     __annotation_manager := __annotation_manager self;
     __color_manager := __color_manager self;
     __value_manager := __value_manager self;
     _press := _press self;
     _tweak := _tweak self |}.

Definition set_got_update (x : bool) (self : ControlSurface) : ControlSurface :=
  {| cls := cls self;
     _pattern := _pattern self;
     _color := _color self;
     _annotation := _annotation self;
     _value := _value self;
     _value_strategy := _value_strategy self;
     _coord := _coord self;
     _needs_update := _needs_update self;
     _got_update := x;
     _color_changed := _color_changed self;
     _annotation_changed := _annotation_changed self;
     _value_changed := _value_changed self;
     __annotation_manager := __annotation_manager self;
     __color_manager := __color_manager self;
     __value_manager := __value_manager self;
     _press := _press self;
     _tweak := _tweak self |}.

Definition set_color_changed (x : bool) (self : ControlSurface) : ControlSurface :=
  {| cls := cls self;
     _pattern := _pattern self;
     _color := _color self;
     _annotation := _annotation self;
     _value := _value self;
     _value_strategy := _value_strategy self;
     _coord := _coord self;
     _needs_update := _needs_update self;
     _got_update := _got_update self;
     _color_changed := x;
     _annotation_changed := _annotation_changed self;
     _value_changed := _value_changed self;
     __annotation_manager := __annotation_manager self;
     __color_manager := __color_manager self;
     __value_manager := __value_manager self;
     _press := _press self;
     _tweak := _tweak self |}.

Definition set_annotation_changed (x : bool) (self : ControlSurface) : ControlSurface :=
  {| cls := cls self;
     _pattern := _pattern self;
     _color := _color self;
     _annotation := _annotation self;
     _value := _value self;
     _value_strategy := _value_strategy self;
     _coord := _coord self;
     _needs_update := _needs_update self;
     _got_update := _got_update self;
     _color_changed := _color_changed self;
     _annotation_changed := x;
     _value_changed := _value_changed self;
     __annotation_manager := __annotation_manager self;
     __color_manager := __color_manager self;
     __value_manager := __value_manager self;
     _press := _press self;
     _tweak := _tweak self |}.

Definition set_value_changed (x : bool) (self : ControlSurface) : ControlSurface :=
  {| cls := cls self;
     _pattern := _pattern self;
     _color := _color self;
     _annotation := _annotation self;
     _value := _value self;
     _value_strategy := _value_strategy self;
     _coord := _coord self;
     _needs_update := _needs_update self;
     _got_update := _got_update self;
     _color_changed := _color_changed self;
     _annotation_changed := _annotation_changed self;
     _value_changed := x;
     __annotation_manager := __annotation_manager self;
     __color_manager := __color_manager self;
     __value_manager := __value_manager self;
     _press := _press self;
     _tweak := _tweak self |}.

Definition set_press (x : float) (self : ControlSurface) : ControlSurface :=
  {| cls := cls self;
     _pattern := _pattern self;
     _color := _color self;
     _annotation := _annotation self;
     _value := _value self;
     _value_strategy := _value_strategy self;
     _coord := _coord self;
     _needs_update := _needs_update self;
     _got_update := _got_update self;
     _color_changed := _color_changed self;
     _annotation_changed := _annotation_changed self;
     _value_changed := _value_changed self;
     __annotation_manager := __annotation_manager self;
     __color_manager := __color_manager self;
     __value_manager := __value_manager self;
     _press := x;
     _tweak := _tweak self |}.

Definition set_tweak (x : float) (self : ControlSurface) : ControlSurface :=
  {| cls := cls self;
     _pattern := _pattern self;
     _color := _color self;
     _annotation := _annotation self;
     _value := _value self;
     _value_strategy := _value_strategy self;
     _coord := _coord self;
     _needs_update := _needs_update self;
     _got_update := _got_update self;
     _color_changed := _color_changed self;
     _annotation_changed := _annotation_changed self;
     _value_changed := _value_changed self;
     __annotation_manager := __annotation_manager self;
     __color_manager := __color_manager self;
     __value_manager := __value_manager self;
     _press := _press self;
     _tweak := x |}.

(** [ControlSurface.__init__]; [cl] is the class being instantiated. *)
Definition ControlSurface_init (cl : SurfaceClass)
    (event_pattern : option IEventPattern)
    (value_strategy : option IValueStrategy)
    (coordinate : Z * Z)
    (annotation_manager : option IAnnotationManager)
    (color_manager : option IColorManager)
    (value_manager : option IValueManager) : ControlSurface :=
  {| cls := cl;
     _pattern := match event_pattern with None => NullPattern | Some p => p end;
     _color := Color_new;
     _annotation := "";
     _value := 0.0;
     _value_strategy :=
       match value_strategy with None => NullEventStrategy | Some v => v end;
     _coord := coordinate;
     _needs_update := false;
     _got_update := false;
     _color_changed := true;
     _annotation_changed := true;
     _value_changed := true;
     __annotation_manager :=
       match annotation_manager with
       | None => annotation_manager
       | Some _ => Some DummyAnnotationManager
       end;
     __color_manager :=
       match color_manager with
       | None => color_manager
       | Some _ => Some DummyColorManager
       end;
     __value_manager :=
       match value_manager with
       | None => value_manager
       | Some _ => Some DummyValueManager
       end;
     _press := 0.0;
     _tweak := 0.0 |}.

(** [ControlEvent(self, self.value, channel, double_press)]: [ce_control] is
    the surface the event refers to, as it is when [match] returns. *)
Record ControlEvent : Type := {
  ce_control : ControlSurface;
  ce_value : float;
  ce_channel : Z;
  ce_double : bool
}.

(** [ControlSurface.match].  [g] are the globals [getContext()] reads and
    [t] is what [time()] returns during the call.  The result is what the
    call returns or raises, with the surface as the call leaves it. *)
Definition ControlSurface_match (g : Globals) (t : float) (event : EventData)
    (self : ControlSurface) : Result (option ControlEvent) * ControlSurface :=
  if matchEvent (_pattern self) event then
    let self := set_value
                  (getValueFromEvent (_value_strategy self) event (_value self))
                  self in
    let channel := getChannelFromEvent (_value_strategy self) event in
    let self := set_needs_update true self in
    let self := set_got_update false self in
    let self := set_tweak t self in
    if isPress (cls self) (_value self) then
      match getContext g with
      | (Ok ctx, _) =>
          let double_press :=
            PyFloat.le (PyFloat.sub t (_press self))
                       (get (settings ctx) "controls.double_press_time") in
          let self := set_press t self in
          (Ok (Some {| ce_control := self; ce_value := _value self;
                       ce_channel := channel; ce_double := double_press |}),
           self)
      | (Raise e, _) => (Raise e, self)
      end
    else
      let double_press := false in
      (Ok (Some {| ce_control := self; ce_value := _value self;
                   ce_channel := channel; ce_double := double_press |}),
       self)
  else (Ok None, self).

(** *** Properties *)

(** [color.setter] *)
Definition color_setter (c : Color) (self : ControlSurface) : ControlSurface :=
  let self := set_got_update true self in
  if decide (_color self = c) then self
  else set_color_changed true (set_color c self).

(** [annotation.setter] *)
Definition annotation_setter (a : string) (self : ControlSurface) : ControlSurface :=
  if decide (_annotation self = a) then self
  else set_annotation_changed true (set_annotation a self).

(** [value.setter]: raises [ValueError] unless [0 <= val <= 1]. *)
Definition value_setter (val : float) (self : ControlSurface)
    : Result unit * ControlSurface :=
  if negb (PyFloat.le 0 val && PyFloat.le val 1) then
    (Raise (ValueError "Value for control must be between 0 and 1"), self)
  else if PyFloat.ne (_value self) val then
    (Ok tt, set_value_changed true
              (set_got_update false
                 (set_needs_update true
                    (set_value val self))))
  else (Ok tt, self).

(** *** Events *)

(** The calls [doTick] makes to the overridable methods.  In the base class
    their bodies are empty, so a call leaves the surface as it is. *)
Inductive Callback : Type :=
| onColorChange (new : Color)
| onAnnotationChange (new : string)
| onValueChange (new : float)
| tick.

(** [ControlSurface.doTick]: the surface after the tick and the calls made,
    in order. *)
Definition doTick (thorough : bool) (self : ControlSurface)
    : ControlSurface * list Callback :=
  let calls := [] in
  let calls := if thorough || _color_changed self
               then calls ++ [onColorChange (_color self)] else calls in
  let calls := if thorough || _annotation_changed self
               then calls ++ [onAnnotationChange (_annotation self)] else calls in
  let calls := if thorough || _value_changed self
               then calls ++ [onValueChange (_value self)] else calls in
  let calls := calls ++ [tick] in
  if _got_update self then
    (set_got_update false (set_needs_update false self), calls)
  else (self, calls).

(** *** The life of a surface *)

(** What the class lets a caller do to a surface once it is constructed. *)
Inductive Operation : Type :=
| op_match (g : Globals) (t : float) (event : EventData)
| op_set_color (c : Color)
| op_set_annotation (a : string)
| op_set_value (val : float)
| op_doTick (thorough : bool).

(** The surface after one operation, whether or not the call raised. *)
Definition perform (op : Operation) (self : ControlSurface) : ControlSurface :=
  match op with
  | op_match g t event => snd (ControlSurface_match g t event self)
  | op_set_color c => color_setter c self
  | op_set_annotation a => annotation_setter a self
  | op_set_value val => snd (value_setter val self)
  | op_doTick thorough => fst (doTick thorough self)
  end.

(** The surfaces that [__init__] followed by any operations can produce. *)
Inductive reachable : ControlSurface -> Prop :=
| reachable_init cl event_pattern value_strategy coordinate
    annotation_manager color_manager value_manager :
    reachable (ControlSurface_init cl event_pattern value_strategy coordinate
                 annotation_manager color_manager value_manager)
| reachable_step op s : reachable s -> reachable (perform op s).

End Surface.

(** ** Event patterns used by the note matcher *)

(** Modelled from the spec: [BasicPattern], [fromNibbles] and
    [isEventStandard] are imported from files that are not in [src/].  A
    pattern is "composed of three per-field matchers, each either exact value,
    wildcard (any), or nibble set (match high nibble against an explicit set,
    low nibble wildcard, or vice versa)"; the Python source writes the
    wildcard as [...]. *)
Inductive NibbleMatch : Type :=
| AnyNibble
| NibbleIn (allowed : list N).

Inductive ByteMatch : Type :=
| ExactByte (b : N)
| AnyByte
| Nibbles (hi lo : NibbleMatch).

Definition nibble_matches (m : NibbleMatch) (n : N) : bool :=
  match m with
  | AnyNibble => true
  | NibbleIn allowed => bool_decide (n ∈ allowed)
  end.

Definition byte_matches (m : ByteMatch) (b : N) : bool :=
  match m with
  | ExactByte v => N.eqb b v
  | AnyByte => true
  | Nibbles hi lo =>
      nibble_matches hi (N.shiftr b 4) && nibble_matches lo (N.land b 15)
  end.

Definition fromNibbles (hi lo : NibbleMatch) : ByteMatch := Nibbles hi lo.

Definition BasicPattern (status data1 data2 : ByteMatch) : IEventPattern :=
  {| matchEvent := fun event =>
       match event with
       | StandardEvent s d1 d2 =>
           byte_matches status s && byte_matches data1 d1 && byte_matches data2 d2
       | SysexEvent _ => false
       end |}.

Definition isEventStandard (event : EventData) : bool :=
  match event with
  | StandardEvent _ _ _ => true
  | SysexEvent _ => false
  end.

(** [event.data1], which only a standard event has. *)
Definition data1 (event : EventData) : option N :=
  match event with
  | StandardEvent _ d1 _ => Some d1
  | SysexEvent _ => None
  end.

(** The coarse note test in the specification's words: a standard event whose
    status byte has high nibble 8 or 9. *)
Definition is_note_status (event : EventData) : bool :=
  match event with
  | StandardEvent s _ _ => N.eqb (N.shiftr s 4) 8 || N.eqb (N.shiftr s 4) 9
  | SysexEvent _ => false
  end.

(** ** The note matcher ([devices/control_generators/notes.py]) *)

Section Notes.
Context `{Collaborators}.

(** The class [Note] is imported from [control_surfaces], which is not in
    [src/]: [Note i] is the surface that [Note(i)] constructs. *)
Variable Note : nat -> ControlSurface.

Record NoteMatcher : Type := {
  _notes : list ControlSurface;
  _note_pattern : IEventPattern
}.

(** [NoteMatcher.__init__] *)
Definition NoteMatcher_init : NoteMatcher :=
  {| _notes := map Note (seq 0 128);
     _note_pattern := BasicPattern (fromNibbles (NibbleIn [8; 9]%N) AnyNibble)
                                   AnyByte AnyByte |}.

(** [NoteMatcher.matchEvent].  Besides what the call returns or raises and
    the matcher as the call leaves it, the third component lists the indices
    of the pooled surfaces whose [match] the call invoked.  Indexing the
    list out of range raises [IndexError]. *)
Definition NoteMatcher_matchEvent (g : Globals) (t : float) (event : EventData)
    (self : NoteMatcher)
    : Result (option ControlEvent) * NoteMatcher * list nat :=
  if isEventStandard event && matchEvent (_note_pattern self) event then
    match data1 event with
    | Some note =>
        match _notes self !! N.to_nat note with
        | Some surface =>
            let '(r, surface') := ControlSurface_match g t event surface in
            (r, {| _notes := <[N.to_nat note := surface']> (_notes self);
                   _note_pattern := _note_pattern self |},
             [N.to_nat note])
        | None => (Raise IndexError, self, [])
        end
    | None => (Raise (Exception "event has no data1"), self, [])
    end
  else (Ok None, self, []).

(** [NoteMatcher.getControls] *)
Definition getControls (self : NoteMatcher) : list ControlSurface := _notes self.

(** What [__init__] establishes and [matchEvent] keeps: the coarse pattern
    and the size of the pool. *)
Definition NoteMatcher_wf (self : NoteMatcher) : Prop :=
  _note_pattern self = _note_pattern NoteMatcher_init /\
  length (_notes self) = 128%nat.

End Notes.

(** ** A concrete instantiation

    One choice of the collaborators and a small device, on which the
    statements below are run. *)

Module Demo.

(** Colours as 24-bit RGB numbers, black by default; a pattern that matches
    nothing; a strategy that reads nothing; a double-press window of 0.3 s. *)
Definition collaborators : Collaborators :=
  {| Color := N;
     Color_eq_dec := N.eq_dec;
     Color_new := 0%N;
     NullPattern := {| matchEvent := fun _ => false |};
     NullEventStrategy := {| getValueFromEvent := fun _ _ => 0.0;
                             getChannelFromEvent := fun _ => (-1)%Z |};
     Settings_new :=
       {| get := fun key =>
            if decide (key = "controls.double_press_time") then 0.3 else 0.0 |}
  |}.

(** A button strategy: data2 of zero is released, anything else pressed; the
    channel is the low nibble of the status byte. *)
Definition ButtonData2Strategy : IValueStrategy :=
  {| getValueFromEvent := fun event _ =>
       match event with
       | StandardEvent _ _ 0%N => 0.0
       | StandardEvent _ _ _ => 1.0
       | SysexEvent _ => 0.0
       end;
     getChannelFromEvent := fun event =>
       match event with
       | StandardEvent s _ _ => Z.of_N (N.land s 15)
       | SysexEvent _ => (-1)%Z
       end |}.

(** A button class on which every value counts as a press. *)
Definition Button_class : SurfaceClass := {| isPress := fun _ => true |}.

(** Controller number 0x74 on channel 16. *)
Definition stop_pattern : IEventPattern :=
  BasicPattern (ExactByte 0xBF) (ExactByte 0x74) AnyByte.

(** A button on that controller. *)
Definition stop_button : @ControlSurface collaborators :=
  ControlSurface_init (H := collaborators) Button_class
    (Some stop_pattern) (Some ButtonData2Strategy) (0, 0)%Z None None None.

Definition press : EventData := StandardEvent 0xBF 0x74 127.

(** Note [i]: note-on and note-off messages with [data1 = i]. *)
Definition Note (i : nat) : @ControlSurface collaborators :=
  ControlSurface_init (H := collaborators) ControlSurface_class
    (Some (BasicPattern (fromNibbles (NibbleIn [8; 9]%N) AnyNibble)
                        (ExactByte (N.of_nat i)) AnyByte))
    (Some ButtonData2Strategy) (0, 0)%Z None None None.

Definition note_on_60 : EventData := StandardEvent 0x90 60 100.

(** The globals once [common/contextmanager.py] has been imported. *)
Definition globals : Globals := globals_after_import (H := collaborators).

End Demo.

(** ** The rest of the surface's interface *)

Section SurfaceInterface.
Context `{Collaborators}.

(** The read-only accessors: [getPattern], and the properties [coordinate],
    [needs_update], [got_update] and [last_tweaked]. *)
Definition getPattern (self : ControlSurface) : IEventPattern := _pattern self.
Definition coordinate (self : ControlSurface) : Z * Z := _coord self.
Definition needs_update (self : ControlSurface) : bool := _needs_update self.
Definition got_update (self : ControlSurface) : bool := _got_update self.
Definition last_tweaked (self : ControlSurface) : float := _tweak self.

(** A history: operations applied one after the other, the first of the list
    first. *)
Definition perform_all (ops : list Operation) (self : ControlSurface)
    : ControlSurface :=
  fold_left (fun s op => perform op s) ops self.

(** The test [0 <= val <= 1] of the value setter. *)
Definition in_unit_interval (val : float) : bool :=
  PyFloat.le 0 val && PyFloat.le val 1.

(** Whether [op], applied to [self], takes the press branch of [match]: the
    event matches and the value it yields counts as a press. *)
Definition is_press (op : Operation) (self : ControlSurface) : bool :=
  match op with
  | op_match _ _ event =>
      matchEvent (_pattern self) event
      && isPress (cls self)
           (getValueFromEvent (_value_strategy self) event (_value self))
  | _ => false
  end.

(** A history without a press. *)
Fixpoint no_press (ops : list Operation) (self : ControlSurface) : bool :=
  match ops with
  | [] => true
  | op :: ops' => negb (is_press op self) && no_press ops' (perform op self)
  end.

(** Two states of one control: what [__init__] fixed is the same in both. *)
Definition same_configuration (s0 s : ControlSurface) : Prop :=
  cls s = cls s0 /\ getPattern s = getPattern s0 /\
  _value_strategy s = _value_strategy s0 /\ coordinate s = coordinate s0.

Definition is_color_assignment (op : Operation) : bool :=
  match op with
  | op_set_color _ => true
  | _ => false
  end.

End SurfaceInterface.

(** ** The after-touch matcher and the matchers' ticks
    ([devices/control_generators/notes.py]) *)

(** The after-touch test: a standard event whose status byte has high nibble
    0xA. *)
Definition is_aftertouch_status (event : EventData) : bool :=
  match event with
  | StandardEvent s _ _ => N.eqb (N.shiftr s 4) 10
  | SysexEvent _ => false
  end.

Section AfterTouch.
Context `{Collaborators}.

(** The classes [Note] and [NoteAfterTouch] are imported from
    [control_surfaces], which is not in [src/]. *)
Variable Note : nat -> ControlSurface.
Variable NoteAfterTouch : nat -> ControlSurface.

(** [NoteMatcher.tick]: the body is a bare [return]; no pooled surface is
    ticked.  The second component lists the pool indices whose [doTick] the
    call invoked. *)
Definition NoteMatcher_tick (thorough : bool) (self : NoteMatcher)
    : NoteMatcher * list nat :=
  (self, []).

(** What a caller can do to a note matcher. *)
Inductive NoteMatcherOp : Type :=
| note_matchEvent (g : Globals) (t : float) (event : EventData)
| note_tick (thorough : bool).

Definition NoteMatcher_perform (op : NoteMatcherOp) (self : NoteMatcher)
    : NoteMatcher :=
  match op with
  | note_matchEvent g t event =>
      snd (fst (NoteMatcher_matchEvent g t event self))
  | note_tick thorough => fst (NoteMatcher_tick thorough self)
  end.

Definition NoteMatcher_perform_all (ops : list NoteMatcherOp)
    (self : NoteMatcher) : NoteMatcher :=
  fold_left (fun m op => NoteMatcher_perform op m) ops self.

Record NoteAfterTouchMatcher : Type := {
  _touches : list ControlSurface;
  _touch_pattern : IEventPattern
}.

(** [NoteAfterTouchMatcher.__init__]; the source passes the single nibble
    [(0xA)] where the note matcher passes the tuple [(8, 9)]. *)
Definition NoteAfterTouchMatcher_init : NoteAfterTouchMatcher :=
  {| _touches := map NoteAfterTouch (seq 0 128);
     _touch_pattern := BasicPattern (fromNibbles (NibbleIn [0xA]%N) AnyNibble)
                                    AnyByte AnyByte |}.

(** [NoteAfterTouchMatcher.matchEvent], with the indices of the pooled
    surfaces whose [match] the call invoked. *)
Definition NoteAfterTouchMatcher_matchEvent (g : Globals) (t : float)
    (event : EventData) (self : NoteAfterTouchMatcher)
    : Result (option ControlEvent) * NoteAfterTouchMatcher * list nat :=
  if isEventStandard event && matchEvent (_touch_pattern self) event then
    match data1 event with
    | Some note =>
        match _touches self !! N.to_nat note with
        | Some surface =>
            let '(r, surface') := ControlSurface_match g t event surface in
            (r, {| _touches := <[N.to_nat note := surface']> (_touches self);
                   _touch_pattern := _touch_pattern self |},
             [N.to_nat note])
        | None => (Raise IndexError, self, [])
        end
    | None => (Raise (Exception "event has no data1"), self, [])
    end
  else (Ok None, self, []).

(** [NoteAfterTouchMatcher.tick]: a bare [return], as for notes. *)
Definition NoteAfterTouchMatcher_tick (thorough : bool)
    (self : NoteAfterTouchMatcher) : NoteAfterTouchMatcher * list nat :=
  (self, []).

Definition NoteAfterTouchMatcher_wf (self : NoteAfterTouchMatcher) : Prop :=
  _touch_pattern self = _touch_pattern NoteAfterTouchMatcher_init /\
  length (_touches self) = 128%nat.

End AfterTouch.

(** ** Resets in a row, and the logging hierarchy *)

Section Driver.
Context `{Collaborators}.

(** One reset per reason, each triggered inside a call wrapped by
    [catchContextResetException], starting from the globals [g]. *)
Definition drive_resets (reasons : list string) (g : Globals) : Globals :=
  fold_left (fun g reason =>
               snd (catchContextResetException (resetContext reason) g))
            reasons g.

End Driver.

(* The nested type below needs no induction scheme of its own. *)
#[local] Set Warnings "-register-all".

(** [common/logger/log_hierarchy.py]: a nested dictionary of category names. *)
Inductive Hierarchy : Type :=
| Categories (children : list (string * Hierarchy)).

Definition HIERARCHY : Hierarchy :=
  Categories
    [("bootstrap",
      Categories
        [("initialize", Categories []);
         ("context", Categories [("reset", Categories []);
                                 ("create", Categories [])]);
         ("device", Categories [("type_detect", Categories [])])]);
     ("device",
      Categories
        [("event", Categories [("in", Categories []);
                               ("out", Categories [])])]);
     ("plugins",
      Categories
        [("special", Categories [("window", Categories []);
                                 ("performance", Categories [])]);
         ("general", Categories [("instrument", Categories []);
                                 ("effect", Categories [])])]);
     ("general", Categories [])].

(** [d[key]] on the children of a node, when the key is there. *)
Fixpoint lookup_child (key : string) (children : list (string * Hierarchy))
    : option Hierarchy :=
  match children with
  | [] => None
  | (k, h) :: rest => if decide (k = key) then Some h else lookup_child key rest
  end.

(** Whether following [path] key by key stays inside the hierarchy. *)
Fixpoint in_hierarchy (h : Hierarchy) (path : list string) : bool :=
  match path with
  | [] => true
  | key :: rest =>
      match h with
      | Categories children =>
          match lookup_child key children with
          | Some h' => in_hierarchy h' rest
          | None => false
          end
      end
  end.

(** [s.split(sep)] for a one-character separator. *)
Fixpoint split_on (sep : Ascii.ascii) (s : string) : list string :=
  match s with
  | EmptyString => [EmptyString]
  | String c rest =>
      if Ascii.eqb c sep then EmptyString :: split_on sep rest
      else match split_on sep rest with
           | [] => [String c EmptyString]
           | word :: words => String c word :: words
           end
  end.

(** ** Version constants ([common/consts.py]) *)

(** [str(n)] for an integer. *)
Definition py_str (n : Z) : string := NilZero.string_of_int (Z.to_int n).

(** [int(s)], when [s] is a decimal numeral. *)
Definition py_int (s : string) : option Z :=
  option_map Z.of_int (NilZero.int_of_string s).

Definition VERSION : list Z := [0; 0; 1]%Z.

(** [VERSION[i]] for the indices the module uses. *)
Definition VERSION_MAJOR : option Z := VERSION !! 0%nat.
Definition VERSION_MINOR : option Z := VERSION !! 1%nat.
Definition VERSION_REVISION : option Z := VERSION !! 2%nat.

(** [".".join(map(str, version))] *)
Definition version_string (version : list Z) : string :=
  String.concat "." (map py_str version).

Definition getVersionString : string := version_string VERSION.

(** ** More concrete controls *)

Module Scenario.

(** A pad: a value other than zero is a press, zero is a release. *)
Definition Pad_class : SurfaceClass := {| isPress := fun v => PyFloat.ne v 0 |}.

Definition pad : @ControlSurface Demo.collaborators :=
  ControlSurface_init (H := Demo.collaborators) Pad_class
    (Some Demo.stop_pattern) (Some Demo.ButtonData2Strategy) (0, 0)%Z
    None None None.

(** A control of the base class, on which nothing is a press. *)
Definition plain : @ControlSurface Demo.collaborators :=
  ControlSurface_init (H := Demo.collaborators) ControlSurface_class
    (Some Demo.stop_pattern) (Some Demo.ButtonData2Strategy) (0, 0)%Z
    None None None.

Definition release : EventData := StandardEvent 0xBF 0x74 0.

(** After-touch surface [i]: polyphonic key pressure for key [i]. *)
Definition NoteAfterTouch (i : nat) : @ControlSurface Demo.collaborators :=
  ControlSurface_init (H := Demo.collaborators) ControlSurface_class
    (Some (BasicPattern (fromNibbles (NibbleIn [0xA]%N) AnyNibble)
                        (ExactByte (N.of_nat i)) AnyByte))
    (Some Demo.ButtonData2Strategy) (0, 0)%Z None None None.

Definition aftertouch_60 : EventData := StandardEvent 0xA0 60 64.
Definition note_on_200 : EventData := StandardEvent 0x90 200 100.

End Scenario.

(** * Properties *)

(** ** Float comparisons *)

Module PyFloatFacts.

Lemma SFcompare_Lt_swap x y :
  SFcompare x y = Some Lt -> SFcompare y x = Some Gt.
Proof.
  destruct x as [sx|sx| |sx mx ex], y as [sy|sy| |sy my ey]; simpl;
    try discriminate; try (destruct sx; discriminate || reflexivity);
    try (destruct sy; discriminate || reflexivity).
  - destruct sx, sy; intros; try discriminate; reflexivity.
  - destruct sx, sy; try discriminate; try reflexivity;
      rewrite (Z.compare_antisym ey ex);
      destruct (ey ?= ex)%Z eqn:E; simpl; try discriminate; try reflexivity;
      pose proof (Pos.compare_cont_antisym mx my Eq) as A; simpl in A;
      rewrite <- A;
      destruct (Pos.compare_cont Eq mx my); simpl; intros;
      try discriminate; reflexivity.
Qed.

(** [a < b] excludes [b <= a]. *)
Lemma lt_not_le a b : PyFloat.lt a b = true -> PyFloat.le b a = false.
Proof.
  unfold PyFloat.lt, PyFloat.le. rewrite ltb_spec, leb_spec.
  unfold SFltb, SFleb.
  destruct (SFcompare (Prim2SF a) (Prim2SF b)) as [[]|] eqn:E; try discriminate.
  intros _. now rewrite (SFcompare_Lt_swap _ _ E).
Qed.

(** Subtracting the float zero changes nothing, not even the sign of a
    zero, an infinity or a NaN. *)
Lemma sub_zero (t : float) : PyFloat.sub t 0 = t.
Proof.
  unfold PyFloat.sub. apply Prim2SF_inj. rewrite sub_spec.
  change (Prim2SF 0) with (S754_zero false).
  destruct (Prim2SF t) as [[]|[]| |]; reflexivity.
Qed.

Lemma SFcompare_refl x : x <> S754_nan -> SFcompare x x = Some Eq.
Proof.
  destruct x as [sx|sx| |sx mx ex]; simpl; intros Hx.
  - reflexivity.
  - now destruct sx.
  - now destruct Hx.
  - pose proof (Pos.compare_cont_refl mx Eq) as R.
    destruct sx; rewrite Z.compare_refl, R; reflexivity.
Qed.

(** A float that some float is below or equal to is not a NaN, so it equals
    itself. *)
Lemma le_ne_self a v : PyFloat.le a v = true -> PyFloat.ne v v = false.
Proof.
  unfold PyFloat.le, PyFloat.ne. rewrite leb_spec, FloatAxioms.eqb_spec.
  unfold SFleb, SFeqb. intros Hle.
  rewrite SFcompare_refl; [reflexivity|].
  intros Hnan. rewrite Hnan in Hle.
  now destruct (Prim2SF a).
Qed.

End PyFloatFacts.

(** ** Control surfaces *)

Section SurfaceFacts.
Context `{Collaborators}.

(** The attributes [match] never assigns. *)
Lemma match_keeps_configuration g t e (s : ControlSurface) :
  let s' := snd (ControlSurface_match g t e s) in
  cls s' = cls s /\ _pattern s' = _pattern s /\
  _value_strategy s' = _value_strategy s /\ _coord s' = _coord s /\
  _color s' = _color s /\ _annotation s' = _annotation s /\
  _color_changed s' = _color_changed s /\
  _annotation_changed s' = _annotation_changed s /\
  _value_changed s' = _value_changed s.
Proof.
  unfold ControlSurface_match.
  destruct (matchEvent (_pattern s) e); simpl; [|tauto].
  destruct (isPress (cls s) _); simpl; [|tauto].
  unfold getContext. destruct (_context g); simpl; tauto.
Qed.

(** No operation of the class turns a dirty flag off. *)
Lemma perform_keeps_dirty_flags op (s : ControlSurface) :
  implb (_color_changed s) (_color_changed (perform op s)) = true /\
  implb (_annotation_changed s) (_annotation_changed (perform op s)) = true /\
  implb (_value_changed s) (_value_changed (perform op s)) = true.
Proof.
  destruct op as [g t e|c|a|v|thorough]; simpl.
  - destruct (match_keeps_configuration g t e s) as (_&_&_&_&_&_&->&->&->).
    repeat split; apply implb_same.
  - unfold color_setter. simpl. destruct (decide _); simpl;
      repeat split; try apply implb_same; apply implb_true_r.
  - unfold annotation_setter. destruct (decide _); simpl;
      repeat split; try apply implb_same; apply implb_true_r.
  - unfold value_setter. destruct (negb _); simpl;
      [|destruct (PyFloat.ne _ _); simpl];
      repeat split; try apply implb_same; apply implb_true_r.
  - unfold doTick. destruct (_got_update s); simpl;
      repeat split; apply implb_same.
Qed.


End SurfaceFacts.

(** C7: assigning the [value] property a float below 0 or above 1 raises
    [ValueError] and leaves the surface, [value] included, exactly as it was;
    assigning a float between 0 and 1 (bounds included) does not raise and
    takes effect: afterwards the value compares equal to the float assigned,
    which is stored when it differs from the previous value, while an equal
    one leaves the surface as it was. *)
Theorem value_setter_validates `{Collaborators} (v : float) (s : ControlSurface) :
  (PyFloat.lt v 0 = true \/ PyFloat.lt 1 v = true ->
     (exists msg, fst (value_setter v s) = Raise (ValueError msg)) /\
     snd (value_setter v s) = s) /\
  (PyFloat.le 0 v = true /\ PyFloat.le v 1 = true ->
     fst (value_setter v s) = Ok tt /\
     PyFloat.ne (_value (snd (value_setter v s))) v = false /\
     (PyFloat.ne (_value s) v = true -> _value (snd (value_setter v s)) = v) /\
     (PyFloat.ne (_value s) v = false -> snd (value_setter v s) = s)).
Proof.
  unfold value_setter. split.
  - intros Hout.
    assert (PyFloat.le 0 v && PyFloat.le v 1 = false) as ->.
    { destruct Hout as [E|E]; apply PyFloatFacts.lt_not_le in E; rewrite E;
        [reflexivity | apply andb_false_r]. }
    simpl. eauto.
  - intros [H0 H1]. rewrite H0, H1. simpl.
    destruct (PyFloat.ne (_value s) v) eqn:Hne; simpl.
    + split; [reflexivity|]. split; [exact (PyFloatFacts.le_ne_self 0 v H0)|].
      split; [reflexivity|discriminate].
    + split; [reflexivity|]. split; [exact Hne|]. split; [discriminate|reflexivity].
Qed.

(** C7 on the values the specification names: 1.5 and -0.1 are refused and the
    surface keeps its state; 0.5 is accepted and stored. *)
Lemma value_setter_validates_witness :
  ((exists msg, fst (value_setter 1.5 Demo.stop_button) = Raise (ValueError msg)) /\
   snd (value_setter 1.5 Demo.stop_button) = Demo.stop_button) /\
  ((exists msg, fst (value_setter (-0.1) Demo.stop_button) = Raise (ValueError msg)) /\
   snd (value_setter (-0.1) Demo.stop_button) = Demo.stop_button) /\
  fst (value_setter 0.5 Demo.stop_button) = Ok tt /\
  _value (snd (value_setter 0.5 Demo.stop_button)) = 0.5.
Proof.
  split; [|split; [|split]].
  - apply (value_setter_validates 1.5 Demo.stop_button). right. reflexivity.
  - apply (value_setter_validates (-0.1) Demo.stop_button). left. reflexivity.
  - apply (value_setter_validates 0.5 Demo.stop_button). split; reflexivity.
  - apply (value_setter_validates 0.5 Demo.stop_button);
      [split; reflexivity | reflexivity].
Defined.

(** C9: a surface fresh from [__init__] has its three dirty flags set, so the
    first [doTick(False)] calls [onColorChange], [onAnnotationChange] and
    [onValueChange] (with the initial colour, annotation and value) although
    nothing was ever assigned or matched. *)
Theorem fresh_surface_first_tick `{Collaborators} cl pattern strategy coordinate
    annotation_manager color_manager value_manager :
  let s := ControlSurface_init cl pattern strategy coordinate
             annotation_manager color_manager value_manager in
  _color_changed s = true /\ _annotation_changed s = true /\
  _value_changed s = true /\
  snd (doTick false s) =
    [onColorChange Color_new; onAnnotationChange ""; onValueChange 0; tick].
Proof. repeat split. Qed.

(** C4: a thorough tick calls all three change callbacks; a tick that is not
    thorough calls exactly the callbacks whose dirty flag is set, each with the
    current reading; either tick resets [needs_update] and [got_update] when
    [got_update] was set, and otherwise leaves both as they were. *)
Theorem doTick_callbacks_and_acknowledgement `{Collaborators} (s : ControlSurface) :
  (snd (doTick true s) =
     [onColorChange (_color s); onAnnotationChange (_annotation s);
      onValueChange (_value s); tick]) /\
  ((forall c, onColorChange c ∈ snd (doTick false s)
              <-> _color_changed s = true /\ c = _color s) /\
   (forall a, onAnnotationChange a ∈ snd (doTick false s)
              <-> _annotation_changed s = true /\ a = _annotation s) /\
   (forall v, onValueChange v ∈ snd (doTick false s)
              <-> _value_changed s = true /\ v = _value s)) /\
  (forall thorough,
     (_got_update s = true ->
        _needs_update (fst (doTick thorough s)) = false /\
        _got_update (fst (doTick thorough s)) = false) /\
     (_got_update s = false -> fst (doTick thorough s) = s)).
Proof.
  split; [|split].
  - unfold doTick. simpl. now destruct (_got_update s).
  - unfold doTick.
    destruct (_color_changed s), (_annotation_changed s), (_value_changed s),
      (_got_update s); simpl; repeat split; intros;
      repeat (match goal with
              | E : _ ∈ _ :: _ |- _ => apply elem_of_cons in E; destruct E
              | E : _ ∈ [] |- _ => apply elem_of_nil in E; destruct E
              | E : _ /\ _ |- _ => destruct E
              end);
      try discriminate; try congruence; subst;
      repeat (apply list_elem_of_here || apply list_elem_of_further).
  - intros thorough. unfold doTick.
    destruct (_got_update s); simpl; split; intros; try discriminate; auto.
Qed.

(** C4 on the stop button: after a colour assignment (which acknowledges) a
    tick resets both flags; without one the tick leaves the surface as it is. *)
Lemma doTick_callbacks_and_acknowledgement_witness :
  let acknowledged := color_setter (H := Demo.collaborators) 0x00FF00%N
                        Demo.stop_button in
  (_needs_update (fst (doTick false acknowledged)) = false /\
   _got_update (fst (doTick false acknowledged)) = false) /\
  fst (doTick false Demo.stop_button) = Demo.stop_button.
Proof.
  split.
  - apply (doTick_callbacks_and_acknowledgement
             (color_setter (H := Demo.collaborators) 0x00FF00%N Demo.stop_button)).
    reflexivity.
  - apply (doTick_callbacks_and_acknowledgement Demo.stop_button). reflexivity.
Defined.

(** C1 (what the code does): [doTick], thorough or not, returns the surface
    with its three dirty flags exactly as it found them; a flag that is set
    stays set across the tick that delivers its callback. *)
Theorem doTick_leaves_dirty_flags `{Collaborators} thorough (s : ControlSurface) :
  _color_changed (fst (doTick thorough s)) = _color_changed s /\
  _annotation_changed (fst (doTick thorough s)) = _annotation_changed s /\
  _value_changed (fst (doTick thorough s)) = _value_changed s.
Proof. unfold doTick. now destruct (_got_update s). Qed.






(** C5: with [controls.double_press_time] at 0.3 and [isPress] always true, a
    press at time 0.0 followed by a press at 0.2 returns an event with the
    double-press flag set, and followed by a press at 0.4 instead returns one
    with the flag clear. *)
Theorem double_press_window `{Collaborators} g ctx e1 e2 (s : ControlSurface) :
  _context g = Some ctx ->
  get (settings ctx) "controls.double_press_time" = 0.3 ->
  (forall v, isPress (cls s) v = true) ->
  matchEvent (_pattern s) e1 = true ->
  matchEvent (_pattern s) e2 = true ->
  let s1 := snd (ControlSurface_match g 0.0 e1 s) in
  (exists ev, fst (ControlSurface_match g 0.2 e2 s1) = Ok (Some ev) /\
              ce_double ev = true) /\
  (exists ev, fst (ControlSurface_match g 0.4 e2 s1) = Ok (Some ev) /\
              ce_double ev = false).
Proof.
  intros Hctx Hdpt Hpress H1 H2.
  unfold ControlSurface_match, getContext.
  rewrite H1, Hctx. simpl. rewrite !Hpress. simpl.
  rewrite H2. simpl. rewrite Hdpt.
  split; eexists; (split; [reflexivity|]); simpl; reflexivity.
Qed.

Lemma double_press_window_witness :
  let s1 := snd (ControlSurface_match Demo.globals 0.0 Demo.press Demo.stop_button) in
  (exists ev, fst (ControlSurface_match Demo.globals 0.2 Demo.press s1) = Ok (Some ev) /\
              ce_double ev = true) /\
  (exists ev, fst (ControlSurface_match Demo.globals 0.4 Demo.press s1) = Ok (Some ev) /\
              ce_double ev = false).
Proof.
  exact (double_press_window Demo.globals _ Demo.press Demo.press Demo.stop_button
           eq_refl eq_refl (fun _ => eq_refl) eq_refl eq_refl).
Defined.

(** ** The note matcher *)

Section NotesFacts.
Context `{Collaborators}.
Variable Note : nat -> ControlSurface.

(** The coarse pattern built by [__init__] is the note test. *)
Lemma note_pattern_is_note_status e :
  isEventStandard e && matchEvent (_note_pattern (NoteMatcher_init Note)) e
  = is_note_status e.
Proof.
  destruct e as [s d1 d2|]; [|reflexivity]. simpl.
  rewrite !andb_true_r. unfold is_note_status.
  destruct (N.eqb_spec (N.shiftr s 4) 8) as [->|H8]; [reflexivity|].
  destruct (N.eqb_spec (N.shiftr s 4) 9) as [->|H9]; [reflexivity|].
  apply bool_decide_eq_false. rewrite !elem_of_cons, elem_of_nil. tauto.
Qed.

Lemma NoteMatcher_init_wf : NoteMatcher_wf Note (NoteMatcher_init Note).
Proof. split; reflexivity. Qed.

End NotesFacts.

(** C6: [NoteMatcher.matchEvent] invokes [match] on at most one pooled
    surface, and only on the one at index [event.data1], and only for an event
    whose status has high nibble 8 or 9 (then, when [data1] is below 128, it
    does invoke that surface and returns what it returns); for any other event
    it returns [None], invokes nothing and leaves the matcher as it was.  No
    pooled surface at another index changes. *)
Theorem NoteMatcher_dispatch `{Collaborators} (Note : nat -> ControlSurface)
    g t e (m : NoteMatcher) :
  NoteMatcher_wf Note m ->
  let out := NoteMatcher_matchEvent g t e m in
  let r := fst (fst out) in
  let m' := snd (fst out) in
  let calls := snd out in
  (is_note_status e = false -> r = Ok None /\ m' = m /\ calls = []) /\
  (calls = [] \/
   exists d, data1 e = Some d /\ is_note_status e = true /\ calls = [N.to_nat d]) /\
  (forall d, is_note_status e = true -> data1 e = Some d -> (d < 128)%N ->
     exists surface, _notes m !! N.to_nat d = Some surface /\
       calls = [N.to_nat d] /\
       r = fst (ControlSurface_match g t e surface) /\
       _notes m' !! N.to_nat d = Some (snd (ControlSurface_match g t e surface))) /\
  (forall i, data1 e <> Some (N.of_nat i) -> _notes m' !! i = _notes m !! i) /\
  NoteMatcher_wf Note m'.
Proof.
  intros [Hpat Hlen]. unfold NoteMatcher_matchEvent.
  assert (isEventStandard e && matchEvent (_note_pattern m) e = is_note_status e)
    as -> by (rewrite Hpat; apply note_pattern_is_note_status).
  destruct (is_note_status e) eqn:Hn; simpl.
  2:{ repeat split; auto. intros; discriminate. }
  destruct e as [s d1 d2|]; [|discriminate]. simpl.
  destruct (_notes m !! N.to_nat d1) as [surface|] eqn:Hl.
  - destruct (ControlSurface_match g t (StandardEvent s d1 d2) surface)
      as [r s'] eqn:Hmatch. simpl.
    split; [discriminate|]. split; [right; eauto|]. split; [|split].
    + intros d _ [= <-] _. exists surface. rewrite Hmatch. simpl.
      repeat split; auto. apply list_lookup_insert_eq.
      now apply lookup_lt_Some in Hl.
    + intros i Hi. apply list_lookup_insert_ne. intros <-.
      apply Hi. now rewrite N2Nat.id.
    + split; simpl; [assumption|]. now rewrite length_insert.
  - simpl. split; [discriminate|]. split; [left; reflexivity|].
    split; [|split; [reflexivity|split; assumption]].
    intros d _ [= <-] Hd. apply lookup_ge_None in Hl. lia.
Qed.

(** C6 on the specification's example: a note-on with [data1 = 60] is routed
    to pool index 60 and to no other. *)
Lemma NoteMatcher_dispatch_witness :
  let out := NoteMatcher_matchEvent Demo.globals 1.0 Demo.note_on_60
               (NoteMatcher_init Demo.Note) in
  snd out = [60%nat] /\
  forall i, i <> 60%nat ->
    _notes (snd (fst out)) !! i = _notes (NoteMatcher_init Demo.Note) !! i.
Proof.
  pose proof (NoteMatcher_dispatch Demo.Note Demo.globals 1.0 Demo.note_on_60
                (NoteMatcher_init Demo.Note)
                (NoteMatcher_init_wf Demo.Note)) as (_ & _ & Hhit & Hframe & _).
  split.
  - destruct (Hhit 60%N eq_refl eq_refl eq_refl) as (_ & _ & Hcalls & _).
    exact Hcalls.
  - intros i Hi. apply Hframe. simpl. intros [= E]. apply Hi. lia.
Defined.

(** ** The context and its reset *)

Section ContextFacts.
Context `{Collaborators}.

Lemma globals_after_import_wf : Globals_wf globals_after_import.
Proof. intros c [= <-]. simpl. lia. Qed.

(** [resetContext] always raises its signal, whatever the globals. *)
Lemma resetContext_raises reason g :
  fst (resetContext reason g) = Raise (ContextResetException reason).
Proof. reflexivity. Qed.

(** ... after it has stored a context that was constructed during the call. *)
Lemma resetContext_installs reason g :
  _context (snd (resetContext reason g))
  = Some {| ctx_id := next_id g; settings := Settings_new |}.
Proof. reflexivity. Qed.

Lemma resetContext_wf reason g : Globals_wf (snd (resetContext reason g)).
Proof. intros c [= <-]. simpl. lia. Qed.

End ContextFacts.

(** C3: [resetContext] stores a newly constructed [DeviceContextManager] in
    [_context] and then raises [ContextResetException]; the stored context is
    not the one that was live before.  A body that reaches [resetContext]
    raises the signal, the rest of the body does not run, and wrapped in
    [catchContextResetException] the call returns normally; the next call
    gets the new context from [getContext]. *)
Theorem reset_protocol `{Collaborators} {A B C : Type} (reason : string)
    (before : M A) (rest : Empty_set -> M B) (next : DeviceContextManager -> M C)
    (g g1 : Globals) (a : A) :
  before g = (Ok a, g1) ->
  let fresh := {| ctx_id := next_id g1; settings := Settings_new |} in
  let body := before ;; (resetContext reason ≫= rest) in
  (fst (resetContext reason g1) = Raise (ContextResetException reason) /\
   _context (snd (resetContext reason g1)) = Some fresh) /\
  (Globals_wf g1 -> forall old, _context g1 = Some old -> ctx_id old <> ctx_id fresh) /\
  body g = (Raise (ContextResetException reason), snd (resetContext reason g1)) /\
  catchContextResetException body g = (Ok tt, snd (resetContext reason g1)) /\
  (let g2 := snd (catchContextResetException body g) in
   getContext g2 = (Ok fresh, g2) /\
   catchContextResetException (getContext ≫= next) g2
   = catchContextResetException (next fresh) g2).
Proof.
  intros Hbefore fresh body.
  assert (body g = (Raise (ContextResetException reason),
                    snd (resetContext reason g1))) as Hbody.
  { unfold body, mbind, M_bind. rewrite Hbefore. reflexivity. }
  split; [split; reflexivity|]. split.
  { intros Hwf old Hold. apply Hwf in Hold. simpl. lia. }
  split; [exact Hbody|].
  assert (catchContextResetException body g = (Ok tt, snd (resetContext reason g1)))
    as Hcatch.
  { unfold catchContextResetException. now rewrite Hbody. }
  split; [exact Hcatch|]. rewrite Hcatch. simpl. split; reflexivity.
Qed.

(** C3 on the imported module: a driver call that resets with reason
    ["device disconnected"] returns normally, and the context the next call
    sees is a new object with the initial settings. *)
Lemma reset_protocol_witness :
  let body := getContext ;;
              (resetContext (H := Demo.collaborators) "device disconnected"
                 ≫= fun _ : Empty_set => mret tt) in
  fst (catchContextResetException body Demo.globals) = Ok tt /\
  fst (getContext (snd (catchContextResetException body Demo.globals)))
  = Ok {| ctx_id := 1%nat; settings := Settings_new (Collaborators := Demo.collaborators) |} /\
  fst (getContext Demo.globals)
  = Ok {| ctx_id := 0%nat; settings := Settings_new (Collaborators := Demo.collaborators) |} /\
  (forall old, _context Demo.globals = Some old -> ctx_id old <> 1%nat).
Proof.
  pose proof (reset_protocol (H := Demo.collaborators) "device disconnected"
                getContext
                (fun _ : Empty_set => mret tt)
                (fun c => mret c)
                Demo.globals Demo.globals _ eq_refl)
    as (_ & Hold & _ & Hcatch & Hnext & _).
  split; [|split; [|split]].
  - now rewrite Hcatch.
  - now rewrite Hnext.
  - reflexivity.
  - exact (Hold (globals_after_import_wf (H := Demo.collaborators))).
Defined.

(** ** Further properties of the surface *)

(** Assigning an attribute the reading it already has marks nothing dirty
    (for the annotation and the value the surface is left untouched; the
    colour setter still sets [got_update]); assigning a different reading
    stores it and sets the attribute's dirty flag. *)
Theorem setters_track_changes `{Collaborators} (s : ControlSurface) :
  (forall c,
     (c = _color s -> color_setter c s = set_got_update true s) /\
     (c <> _color s ->
        _color (color_setter c s) = c /\
        _color_changed (color_setter c s) = true /\
        _got_update (color_setter c s) = true)) /\
  (forall a,
     (a = _annotation s -> annotation_setter a s = s) /\
     (a <> _annotation s ->
        _annotation (annotation_setter a s) = a /\
        _annotation_changed (annotation_setter a s) = true)) /\
  (forall v, PyFloat.le 0 v = true -> PyFloat.le v 1 = true ->
     (PyFloat.ne (_value s) v = false -> value_setter v s = (Ok tt, s)) /\
     (PyFloat.ne (_value s) v = true ->
        let s' := snd (value_setter v s) in
        _value s' = v /\ _value_changed s' = true /\
        _needs_update s' = true /\ _got_update s' = false)).
Proof.
  split; [|split].
  - intros c. unfold color_setter. simpl. split.
    + intros ->. now rewrite decide_True.
    + intros Hc. rewrite decide_False by congruence. now simpl.
  - intros a. unfold annotation_setter. split.
    + intros ->. now rewrite decide_True.
    + intros Ha. rewrite decide_False by congruence. now simpl.
  - intros v H0 H1. unfold value_setter. rewrite H0, H1. simpl.
    split; intros ->; simpl; auto.
Qed.

(** From [__init__] on, whatever is done to a surface, its three dirty flags
    are set, so every tick, thorough or not, makes all three callbacks. *)
Theorem reachable_surface_is_dirty `{Collaborators} (s : ControlSurface) :
  reachable s ->
  (_color_changed s = true /\ _annotation_changed s = true /\
   _value_changed s = true) /\
  snd (doTick false s) =
    [onColorChange (_color s); onAnnotationChange (_annotation s);
     onValueChange (_value s); tick].
Proof.
  intros Hreach.
  assert (_color_changed s = true /\ _annotation_changed s = true /\
          _value_changed s = true) as Hflags.
  { induction Hreach as [|op s _ (Hc & Ha & Hv)]; [repeat split|].
    destruct (perform_keeps_dirty_flags op s) as (Ic & Ia & Iv).
    rewrite Hc in Ic. rewrite Ha in Ia. rewrite Hv in Iv. auto. }
  split; [exact Hflags|].
  destruct Hflags as (Hc & Ha & Hv).
  unfold doTick. rewrite Hc, Ha, Hv. simpl. now destruct (_got_update s).
Qed.

(** The stop button after a press, a colour change and two ticks still has
    every flag set. *)
Lemma reachable_surface_is_dirty_witness :
  let s := perform (op_doTick false)
             (perform (op_doTick false)
                (perform (op_set_color (H := Demo.collaborators) 0xFF0000%N)
                   (perform (op_match Demo.globals 1.0 Demo.press)
                      Demo.stop_button))) in
  (_color_changed s = true /\ _annotation_changed s = true /\
   _value_changed s = true) /\
  snd (doTick false s) =
    [onColorChange (_color s); onAnnotationChange (_annotation s);
     onValueChange (_value s); tick].
Proof.
  apply (reachable_surface_is_dirty (H := Demo.collaborators)).
  repeat apply reachable_step. apply reachable_init.
Defined.

(** ** Further properties of the reset decorator *)

(** [catchContextResetException] swallows nothing but the reset signal: when
    the wrapped function returns, the wrapper returns [None]; when it raises
    any other exception, the wrapper raises it too; the globals are in all
    cases those the wrapped function left. *)
Theorem catch_only_swallows_reset {A : Type} (func : M A) (g : Globals) :
  snd (catchContextResetException func g) = snd (func g) /\
  (forall a, fst (func g) = Ok a -> fst (catchContextResetException func g) = Ok tt) /\
  (forall reason, fst (func g) = Raise (ContextResetException reason) ->
     fst (catchContextResetException func g) = Ok tt) /\
  (forall e, fst (func g) = Raise e ->
     (forall reason, e <> ContextResetException reason) ->
     fst (catchContextResetException func g) = Raise e).
Proof.
  unfold catchContextResetException.
  destruct (func g) as [[a|e] g']; simpl.
  - split; [reflexivity|]. split; [reflexivity|]. split; intros; discriminate.
  - split; [now destruct e|]. split; [intros; discriminate|]. split.
    + intros reason [= ->]. reflexivity.
    + intros e0 [= <-] Hne. destruct e as [msg| |msg|reason]; try reflexivity.
      destruct (Hne reason eq_refl).
Qed.

(** ** Histories of a surface *)

Section SurfaceHistoryFacts.
Context `{Collaborators}.

(** No operation assigns what [__init__] fixed. *)
Lemma perform_keeps_configuration op (s : ControlSurface) :
  cls (perform op s) = cls s /\
  _pattern (perform op s) = _pattern s /\
  _value_strategy (perform op s) = _value_strategy s /\
  _coord (perform op s) = _coord s /\
  __annotation_manager (perform op s) = __annotation_manager s /\
  __color_manager (perform op s) = __color_manager s /\
  __value_manager (perform op s) = __value_manager s.
Proof.
  destruct op as [g t e|c|a|v|thorough]; simpl.
  - unfold ControlSurface_match, getContext.
    destruct (matchEvent (_pattern s) e); simpl; [|tauto].
    destruct (isPress (cls s) _); simpl; [|tauto].
    destruct (_context g); simpl; tauto.
  - unfold color_setter. simpl. destruct (decide _); simpl; tauto.
  - unfold annotation_setter. destruct (decide _); simpl; tauto.
  - unfold value_setter. destruct (negb _); simpl; [tauto|].
    destruct (PyFloat.ne _ _); simpl; tauto.
  - unfold doTick. destruct (_got_update s); simpl; tauto.
Qed.

(** The only exception [match] can raise is [getContext]'s. *)
Lemma match_raise_inv g t e (s : ControlSurface) exc :
  fst (ControlSurface_match g t e s) = Raise exc ->
  exc = Exception "Context isn't initialised" /\
  matchEvent (_pattern s) e = true /\
  isPress (cls s) (getValueFromEvent (_value_strategy s) e (_value s)) = true /\
  _context g = None.
Proof.
  unfold ControlSurface_match, getContext.
  destruct (matchEvent (_pattern s) e); simpl; [|discriminate].
  destruct (isPress (cls s) _); simpl; [|discriminate].
  destruct (_context g); simpl; [discriminate|].
  intros [= <-]. auto.
Qed.

(** An operation that is not a press leaves [_press] alone. *)
Lemma perform_keeps_press op (s : ControlSurface) :
  is_press op s = false -> _press (perform op s) = _press s.
Proof.
  destruct op as [g t e|c|a|v|thorough]; simpl.
  - unfold ControlSurface_match.
    destruct (matchEvent (_pattern s) e); simpl; [|reflexivity].
    intros ->. reflexivity.
  - intros _. unfold color_setter. simpl. now destruct (decide _).
  - intros _. unfold annotation_setter. now destruct (decide _).
  - intros _. unfold value_setter. destruct (negb _); simpl; [reflexivity|].
    now destruct (PyFloat.ne _ _).
  - intros _. unfold doTick. now destruct (_got_update s).
Qed.

Lemma no_press_keeps_press ops (s : ControlSurface) :
  no_press ops s = true -> _press (perform_all ops s) = _press s.
Proof.
  unfold perform_all. revert s.
  induction ops as [|op ops IH]; intros s; simpl; [reflexivity|].
  intros [Hop Hrest]%andb_true_iff. apply negb_true_iff in Hop.
  rewrite (IH _ Hrest). now apply perform_keeps_press.
Qed.

(** Short of a colour assignment, no operation acknowledges a pending
    update. *)
Lemma perform_keeps_pending op (s : ControlSurface) :
  is_color_assignment op = false ->
  _needs_update s = true -> _got_update s = false ->
  _needs_update (perform op s) = true /\ _got_update (perform op s) = false.
Proof.
  intros Hop Hneeds Hgot. destruct op as [g t e|c|a|v|thorough]; simpl.
  - unfold ControlSurface_match, getContext.
    destruct (matchEvent (_pattern s) e); simpl; [|auto].
    destruct (isPress (cls s) _); simpl; [|auto].
    destruct (_context g); simpl; auto.
  - discriminate.
  - unfold annotation_setter. destruct (decide _); simpl; auto.
  - unfold value_setter. destruct (negb _); simpl; [auto|].
    destruct (PyFloat.ne _ _); simpl; auto.
  - unfold doTick. rewrite Hgot. simpl. auto.
Qed.

End SurfaceHistoryFacts.

(** C10: [__init__] sets [_press] to 0.0 and only a press changes it, so the
    first press on a surface (whatever happened to it before that was not a
    press: ticks, assignments, events that miss or do not count as a press)
    is reported as a double press whenever its time [t] satisfies
    [t <= controls.double_press_time], and it stores [t] as the press time. *)
Theorem first_press_is_double `{Collaborators} g ctx t e ops cl pattern strategy
    coordinate annotation_manager color_manager value_manager :
  let fresh := ControlSurface_init cl pattern strategy coordinate
                 annotation_manager color_manager value_manager in
  no_press ops fresh = true ->
  let s := perform_all ops fresh in
  _context g = Some ctx ->
  is_press (op_match g t e) s = true ->
  PyFloat.le t (get (settings ctx) "controls.double_press_time") = true ->
  exists ev, fst (ControlSurface_match g t e s) = Ok (Some ev) /\
             ce_double ev = true /\
             _press (snd (ControlSurface_match g t e s)) = t.
Proof.
  intros fresh Hquiet s Hctx Hp Hle.
  assert (_press s = 0) as Hlast
    by (unfold s; now rewrite (no_press_keeps_press _ _ Hquiet)).
  simpl in Hp. apply andb_true_iff in Hp as [Hhit Hpress].
  unfold ControlSurface_match, getContext.
  rewrite Hhit. simpl. rewrite Hpress, Hctx. simpl.
  eexists. split; [reflexivity|]. simpl. split; [|reflexivity].
  now rewrite Hlast, PyFloatFacts.sub_zero.
Qed.

(** C10 on a pad that was released, ticked and recoloured before anyone
    pressed it: the first press, a quarter of a second after the epoch of the
    clock, counts as a double press. *)
Lemma first_press_is_double_witness :
  let s := perform_all (H := Demo.collaborators)
             [op_match Demo.globals 0.1 Scenario.release;
              op_doTick false;
              op_set_color (H := Demo.collaborators) 0x00FF00%N]
             (ControlSurface_init Scenario.Pad_class (Some Demo.stop_pattern)
                (Some Demo.ButtonData2Strategy) (0, 0)%Z None None None) in
  exists ev, fst (ControlSurface_match Demo.globals 0.25 Demo.press s)
               = Ok (Some ev) /\
             ce_double ev = true /\
             _press (snd (ControlSurface_match Demo.globals 0.25 Demo.press s))
             = 0.25.
Proof.
  exact (first_press_is_double (H := Demo.collaborators) Demo.globals _ 0.25
           Demo.press
           [op_match Demo.globals 0.1 Scenario.release;
            op_doTick false;
            op_set_color (H := Demo.collaborators) 0x00FF00%N]
           Scenario.Pad_class (Some Demo.stop_pattern)
           (Some Demo.ButtonData2Strategy) (0, 0)%Z None None None
           eq_refl eq_refl eq_refl eq_refl).
Defined.

(** Whatever is done to a surface, what [getPattern] and [coordinate] return,
    its class, its value strategy and its managers are those it was given at
    construction. *)
Theorem configuration_is_fixed `{Collaborators} ops (s : ControlSurface) :
  getPattern (perform_all ops s) = getPattern s /\
  coordinate (perform_all ops s) = coordinate s /\
  cls (perform_all ops s) = cls s /\
  _value_strategy (perform_all ops s) = _value_strategy s /\
  __annotation_manager (perform_all ops s) = __annotation_manager s /\
  __color_manager (perform_all ops s) = __color_manager s /\
  __value_manager (perform_all ops s) = __value_manager s.
Proof.
  unfold getPattern, coordinate, perform_all. revert s.
  induction ops as [|op ops IH]; intros s; simpl; [tauto|].
  destruct (IH (perform op s)) as (-> & -> & -> & -> & -> & -> & ->).
  destruct (perform_keeps_configuration op s) as (? & ? & ? & ? & ? & ? & ?).
  repeat split; assumption.
Qed.

(** When the value strategy only yields values within [0, 1], a value that is
    within [0, 1] stays there over every history of matches, assignments
    (accepted or refused) and ticks. *)
Theorem value_stays_in_unit_interval `{Collaborators} ops (s : ControlSurface) :
  (forall e v,
     in_unit_interval (getValueFromEvent (_value_strategy s) e v) = true) ->
  in_unit_interval (_value s) = true ->
  in_unit_interval (_value (perform_all ops s)) = true.
Proof.
  unfold perform_all. revert s.
  induction ops as [|op ops IH]; intros s Hstrategy Hvalue; simpl; [assumption|].
  apply IH.
  - destruct (perform_keeps_configuration op s) as (_ & _ & -> & _). exact Hstrategy.
  - destruct op as [g t e|c|a|v|thorough]; simpl.
    + unfold ControlSurface_match, getContext.
      destruct (matchEvent (_pattern s) e); simpl; [|assumption].
      destruct (isPress (cls s) _); simpl; [|apply Hstrategy].
      destruct (_context g); simpl; apply Hstrategy.
    + unfold color_setter. simpl. now destruct (decide _).
    + unfold annotation_setter. now destruct (decide _).
    + unfold value_setter. fold (in_unit_interval v).
      destruct (in_unit_interval v) eqn:Hv; simpl; [|assumption].
      now destruct (PyFloat.ne _ _).
    + unfold doTick. now destruct (_got_update s).
Qed.

Lemma value_stays_in_unit_interval_witness :
  in_unit_interval
    (_value (perform_all (H := Demo.collaborators)
               [op_match Demo.globals 1.0 Demo.press;
                op_set_value 1.5;
                op_set_value 0.25;
                op_doTick true;
                op_match Demo.globals 2.0 Scenario.release]
               Scenario.pad)) = true.
Proof.
  apply (value_stays_in_unit_interval (H := Demo.collaborators)).
  - intros [s d1 [|d2]|sysex] v; reflexivity.
  - reflexivity.
Defined.

(** [match] raises only when the event matches, its value counts as a press
    and no context is installed; the exception is [getContext]'s, and it
    leaves the surface with the new value, [needs_update] set and the new
    tweak time, but with the old press time.  In every other case [match]
    returns. *)
Theorem match_raises_only_without_context `{Collaborators} g t e
    (s : ControlSurface) :
  let hit := matchEvent (_pattern s) e in
  let value := getValueFromEvent (_value_strategy s) e (_value s) in
  (forall exc, fst (ControlSurface_match g t e s) = Raise exc ->
     exc = Exception "Context isn't initialised" /\
     hit = true /\ isPress (cls s) value = true /\ _context g = None) /\
  (hit = true -> isPress (cls s) value = true -> _context g = None ->
     ControlSurface_match g t e s
     = (Raise (Exception "Context isn't initialised"),
        set_tweak t (set_got_update false (set_needs_update true
                                             (set_value value s))))).
Proof.
  split.
  - intros exc. apply match_raise_inv.
  - intros Hhit Hpress Hctx. unfold ControlSurface_match, getContext.
    rewrite Hhit. simpl. rewrite Hpress, Hctx. reflexivity.
Qed.

(** Before [_initContext] has run, a press on the stop button raises and yet
    changes the button's value and tweak time. *)
Lemma match_raises_only_without_context_witness :
  let out := ControlSurface_match globals_at_load 2.5 Demo.press Demo.stop_button in
  fst out = Raise (Exception "Context isn't initialised") /\
  _value (snd out) = 1 /\ _tweak (snd out) = 2.5 /\ _press (snd out) = 0.
Proof.
  pose proof (match_raises_only_without_context (H := Demo.collaborators)
                globals_at_load 2.5 Demo.press Demo.stop_button) as [_ Hraise].
  rewrite (Hraise eq_refl eq_refl eq_refl). repeat split.
Defined.

(** On a surface whose [isPress] is never true (the base class), no history
    changes the press time, and [match] never raises, whatever the globals,
    and never reports a double press. *)
Theorem surface_without_press_never_double `{Collaborators} ops g t e
    (s : ControlSurface) :
  (forall v, isPress (cls s) v = false) ->
  _press (perform_all ops s) = _press s /\
  (forall exc, fst (ControlSurface_match g t e s) <> Raise exc) /\
  (forall ev, fst (ControlSurface_match g t e s) = Ok (Some ev) ->
     ce_double ev = false).
Proof.
  intros Hnever. split; [|split].
  - apply no_press_keeps_press.
    assert (forall s' : ControlSurface, cls s' = cls s -> no_press ops s' = true)
      as Hall; [|now apply Hall].
    induction ops as [|op ops IH]; intros s' Hcls; simpl; [reflexivity|].
    apply andb_true_iff. split.
    + apply negb_true_iff. destruct op; simpl; try reflexivity.
      rewrite Hcls, Hnever. apply andb_false_r.
    + apply IH. destruct (perform_keeps_configuration op s') as (-> & _).
      exact Hcls.
  - intros exc Hraise. apply match_raise_inv in Hraise as (_ & _ & Hpress & _).
    rewrite Hnever in Hpress. discriminate.
  - intros ev. unfold ControlSurface_match.
    destruct (matchEvent (_pattern s) e); simpl; [|discriminate].
    rewrite Hnever. simpl. intros [= <-]. reflexivity.
Qed.

Lemma surface_without_press_never_double_witness :
  _press (perform_all (H := Demo.collaborators)
            [op_match Demo.globals 1.0 Demo.press;
             op_match Demo.globals 1.1 Demo.press] Scenario.plain) = 0 /\
  (forall exc, fst (ControlSurface_match globals_at_load 1.0 Demo.press Scenario.plain)
               <> Raise exc) /\
  (forall ev, fst (ControlSurface_match globals_at_load 1.0 Demo.press Scenario.plain)
              = Ok (Some ev) -> ce_double ev = false).
Proof.
  exact (surface_without_press_never_double (H := Demo.collaborators)
           [op_match Demo.globals 1.0 Demo.press;
            op_match Demo.globals 1.1 Demo.press]
           globals_at_load 1.0 Demo.press Scenario.plain (fun _ => eq_refl)).
Defined.

(** The double-press flag of a press measures the time since the previous
    press and nothing else: after a press at [t1], whatever follows that is not
    a press (releases, misses, assignments, ticks), a press at [t2] reports
    [t2 - t1 <= controls.double_press_time] and becomes the reference for the
    next one. *)
Theorem double_press_measures_from_last_press `{Collaborators}
    g1 ctx1 t1 e1 ops g2 ctx2 t2 e2 (s : ControlSurface) :
  _context g1 = Some ctx1 ->
  is_press (op_match g1 t1 e1) s = true ->
  let s1 := perform (op_match g1 t1 e1) s in
  no_press ops s1 = true ->
  let s2 := perform_all ops s1 in
  _context g2 = Some ctx2 ->
  is_press (op_match g2 t2 e2) s2 = true ->
  exists ev,
    fst (ControlSurface_match g2 t2 e2 s2) = Ok (Some ev) /\
    ce_double ev = PyFloat.le (PyFloat.sub t2 t1)
                     (get (settings ctx2) "controls.double_press_time") /\
    _press (snd (ControlSurface_match g2 t2 e2 s2)) = t2.
Proof.
  intros Hctx1 Hp1 s1 Hquiet s2 Hctx2 Hp2.
  assert (_press s2 = t1) as Hlast.
  { unfold s2. rewrite (no_press_keeps_press _ _ Hquiet). unfold s1. simpl.
    simpl in Hp1. apply andb_true_iff in Hp1 as [Hhit Hpress].
    unfold ControlSurface_match, getContext.
    rewrite Hhit. simpl. rewrite Hpress, Hctx1. reflexivity. }
  simpl in Hp2. apply andb_true_iff in Hp2 as [Hhit Hpress].
  unfold ControlSurface_match, getContext.
  rewrite Hhit. simpl. rewrite Hpress, Hctx2. simpl.
  eexists. split; [reflexivity|]. simpl. now rewrite Hlast.
Qed.

(** A pad pressed at 1.0, released at 1.1, ticked, and pressed again at 1.25:
    the release does not count, the second press is a double press. *)
Lemma double_press_measures_from_last_press_witness :
  let s1 := perform (H := Demo.collaborators)
              (op_match Demo.globals 1.0 Demo.press) Scenario.pad in
  let s2 := perform_all [op_match Demo.globals 1.1 Scenario.release;
                         op_doTick false] s1 in
  exists ev,
    fst (ControlSurface_match Demo.globals 1.25 Demo.press s2) = Ok (Some ev) /\
    ce_double ev = true /\
    _press (snd (ControlSurface_match Demo.globals 1.25 Demo.press s2)) = 1.25.
Proof.
  exact (double_press_measures_from_last_press (H := Demo.collaborators)
           Demo.globals _ 1.0 Demo.press
           [op_match Demo.globals 1.1 Scenario.release; op_doTick false]
           Demo.globals _ 1.25 Demo.press Scenario.pad
           eq_refl eq_refl eq_refl eq_refl eq_refl).
Defined.

(** An update that a match or a value change made pending stays pending
    ([needs_update] set, [got_update] clear) through every history in which
    the colour is not assigned, ticks included; assigning the colour and then
    ticking clears both flags; but an event matched between the colour
    assignment and the tick keeps the update pending across that tick. *)
Theorem update_pending_until_color_assigned `{Collaborators} ops
    (s : ControlSurface) :
  needs_update s = true ->
  got_update s = false ->
  forallb (fun op => negb (is_color_assignment op)) ops = true ->
  let s' := perform_all ops s in
  (needs_update s' = true /\ got_update s' = false) /\
  (forall c thorough,
     needs_update (fst (doTick thorough (color_setter c s'))) = false /\
     got_update (fst (doTick thorough (color_setter c s'))) = false) /\
  (forall c g t e thorough,
     matchEvent (_pattern s') e = true ->
     needs_update
       (fst (doTick thorough
               (snd (ControlSurface_match g t e (color_setter c s'))))) = true).
Proof.
  unfold needs_update, got_update, perform_all.
  intros Hneeds Hgot Hops.
  assert (_needs_update (fold_left (fun s op => perform op s) ops s) = true /\
          _got_update (fold_left (fun s op => perform op s) ops s) = false)
    as Hpending.
  { revert s Hneeds Hgot Hops.
    induction ops as [|op ops IH]; intros s Hneeds Hgot Hops; simpl; [auto|].
    simpl in Hops. apply andb_true_iff in Hops as [Hop Hops].
    apply negb_true_iff in Hop.
    destruct (perform_keeps_pending op s Hop Hneeds Hgot) as [Hn Hg].
    now apply IH. }
  split; [exact Hpending|]. split.
  - intros c thorough. unfold doTick, color_setter. simpl.
    destruct (decide _); simpl; auto.
  - intros c g t e thorough Hhit.
    unfold ControlSurface_match, getContext, color_setter. simpl.
    destruct (decide _); simpl; rewrite Hhit; simpl;
      (destruct (isPress (cls _) _); simpl;
       [destruct (_context g)|]; reflexivity).
Qed.

Lemma update_pending_until_color_assigned_witness :
  let s := snd (ControlSurface_match Demo.globals 1.0 Demo.press Scenario.pad) in
  let s' := perform_all (H := Demo.collaborators)
              [op_doTick false; op_set_annotation "Kick"; op_doTick true] s in
  (needs_update s' = true /\ got_update s' = false) /\
  needs_update (fst (doTick false (color_setter (H := Demo.collaborators)
                                     0xFF0000%N s'))) = false.
Proof.
  pose proof (update_pending_until_color_assigned (H := Demo.collaborators)
                [op_doTick false; op_set_annotation "Kick"; op_doTick true]
                (snd (ControlSurface_match Demo.globals 1.0 Demo.press Scenario.pad))
                eq_refl eq_refl eq_refl) as (Hpending & Hack & _).
  split; [exact Hpending|]. apply (Hack 0xFF0000%N false).
Defined.

(** ** Histories of the matchers *)

Section MatcherFacts.
Context `{Collaborators}.
Variable Note : nat -> ControlSurface.
Variable NoteAfterTouch : nat -> ControlSurface.

Lemma map_lookup {A B : Type} (f : A -> B) (l : list A) (i : nat) :
  map f l !! i = f <$> l !! i.
Proof. revert i. induction l as [|x l IH]; intros [|i]; simpl; auto. Qed.

(** The pool [[C(i) for i in range(128)]] holds [C(i)] at index [i]. *)
Lemma pool_lookup (C : nat -> ControlSurface) i :
  (i < 128)%nat -> map C (seq 0 128) !! i = Some (C i).
Proof.
  intros Hi. rewrite map_lookup, lookup_seq_lt by exact Hi. reflexivity.
Qed.

Lemma match_same_configuration g t e (s : ControlSurface) :
  same_configuration s (snd (ControlSurface_match g t e s)).
Proof.
  destruct (perform_keeps_configuration (op_match g t e) s) as (? & ? & ? & ? & _).
  repeat split; assumption.
Qed.

Lemma same_configuration_trans (s0 s1 s2 : ControlSurface) :
  same_configuration s0 s1 -> same_configuration s1 s2 ->
  same_configuration s0 s2.
Proof.
  unfold same_configuration.
  intros (-> & -> & -> & ->) (-> & -> & -> & ->). auto.
Qed.

(** [match] never turns [needs_update] off. *)
Lemma match_keeps_needs_update g t e (s : ControlSurface) :
  _needs_update s = true ->
  _needs_update (snd (ControlSurface_match g t e s)) = true.
Proof.
  intros Hneeds. unfold ControlSurface_match, getContext.
  destruct (matchEvent (_pattern s) e); simpl; [|assumption].
  destruct (isPress (cls s) _); simpl; [|reflexivity].
  destruct (_context g); reflexivity.
Qed.

(** What one operation does to the pool: at most one surface is replaced, by
    what its own [match] made of it. *)
Lemma NoteMatcher_perform_pool op (m : NoteMatcher) :
  _note_pattern (NoteMatcher_perform op m) = _note_pattern m /\
  (_notes (NoteMatcher_perform op m) = _notes m \/
   exists i s g t e,
     _notes m !! i = Some s /\
     _notes (NoteMatcher_perform op m)
     = <[i := snd (ControlSurface_match g t e s)]> (_notes m)).
Proof.
  destruct op as [g t e|thorough]; simpl; [|auto].
  unfold NoteMatcher_matchEvent.
  destruct (isEventStandard e && matchEvent (_note_pattern m) e);
    simpl; [|auto].
  destruct (data1 e) as [d|]; simpl; [|auto].
  destruct (_notes m !! N.to_nat d) as [s|] eqn:Hl; simpl; [|auto].
  destruct (ControlSurface_match g t e s) as [r s'] eqn:Hm. simpl.
  split; [reflexivity|]. right. exists (N.to_nat d), s, g, t, e.
  now rewrite Hm.
Qed.

Lemma NoteMatcher_perform_all_pool ops (m : NoteMatcher) :
  _note_pattern (NoteMatcher_perform_all ops m) = _note_pattern m /\
  Forall2 same_configuration (_notes m) (_notes (NoteMatcher_perform_all ops m)).
Proof.
  unfold NoteMatcher_perform_all. revert m.
  induction ops as [|op ops IH]; intros m; simpl.
  - split; [reflexivity|]. apply Forall_Forall2_diag, Forall_forall.
    intros s _. repeat split.
  - destruct (IH (NoteMatcher_perform op m)) as [-> Hrest].
    destruct (NoteMatcher_perform_pool op m) as [-> Hpool].
    split; [reflexivity|].
    eapply Forall2_trans; [apply same_configuration_trans| |exact Hrest].
    destruct Hpool as [->|(i & s & g & t & e & Hl & ->)].
    + apply Forall_Forall2_diag, Forall_forall. intros s _. repeat split.
    + rewrite <- (list_insert_id _ _ _ Hl) at 1.
      apply Forall2_insert; [|apply match_same_configuration].
      apply Forall_Forall2_diag, Forall_forall. intros s' _. repeat split.
Qed.

Lemma touch_pattern_is_aftertouch_status e :
  isEventStandard e
  && matchEvent (_touch_pattern (NoteAfterTouchMatcher_init NoteAfterTouch)) e
  = is_aftertouch_status e.
Proof.
  destruct e as [s d1 d2|]; [|reflexivity]. simpl.
  rewrite !andb_true_r. unfold is_aftertouch_status.
  destruct (N.eqb_spec (N.shiftr s 4) 10) as [->|H10]; [reflexivity|].
  apply bool_decide_eq_false. rewrite !elem_of_cons, elem_of_nil. tauto.
Qed.

Lemma NoteAfterTouchMatcher_init_wf :
  NoteAfterTouchMatcher_wf NoteAfterTouch
    (NoteAfterTouchMatcher_init NoteAfterTouch).
Proof. split; reflexivity. Qed.

(** No status byte is both a note status and an after-touch status. *)
Lemma note_status_not_aftertouch e :
  is_note_status e = true -> is_aftertouch_status e = false.
Proof.
  destruct e as [s d1 d2|]; simpl; [|reflexivity].
  intros [E|E]%orb_true_iff; apply N.eqb_eq in E; rewrite E; reflexivity.
Qed.

End MatcherFacts.

(** Over every history of [matchEvent] and [tick] calls, the note matcher
    keeps its coarse pattern and its 128 surfaces, and the surface at index
    [i] is still the control constructed as [Note(i)]: same class, pattern,
    value strategy and coordinate. *)
Theorem note_pool_is_stable `{Collaborators} (Note : nat -> ControlSurface) ops :
  let m := NoteMatcher_perform_all ops (NoteMatcher_init Note) in
  NoteMatcher_wf Note m /\
  forall i, (i < 128)%nat ->
    exists s, getControls m !! i = Some s /\ same_configuration (Note i) s.
Proof.
  intros m.
  destruct (NoteMatcher_perform_all_pool ops (NoteMatcher_init Note))
    as [Hpat Hpool]. fold m in Hpat, Hpool.
  assert (length (_notes m) = 128%nat) as Hlen
    by (rewrite <- (Forall2_length _ _ _ Hpool); reflexivity).
  split; [split; [exact Hpat | exact Hlen]|].
  intros i Hi.
  assert (_notes (NoteMatcher_init Note) !! i = Some (Note i)) as Hinit
    by now apply pool_lookup.
  destruct (Forall2_lookup_l _ _ _ _ _ Hpool Hinit) as (s & Hs & Hsame).
  exists s. split; assumption.
Qed.

(** [NoteMatcher.matchEvent] raises [IndexError] exactly for a note event
    (status high nibble 8 or 9) whose [data1] is 128 or more; it then invokes
    no surface and leaves the matcher as it was. *)
Theorem note_index_error_iff `{Collaborators} (Note : nat -> ControlSurface)
    g t e (m : NoteMatcher) :
  NoteMatcher_wf Note m ->
  let out := NoteMatcher_matchEvent g t e m in
  (fst (fst out) = Raise IndexError <->
   is_note_status e = true /\ exists d, data1 e = Some d /\ (128 <= d)%N) /\
  (fst (fst out) = Raise IndexError -> snd (fst out) = m /\ snd out = []).
Proof.
  intros [Hpat Hlen]. unfold NoteMatcher_matchEvent.
  assert (isEventStandard e && matchEvent (_note_pattern m) e = is_note_status e)
    as -> by (rewrite Hpat; apply note_pattern_is_note_status).
  destruct (is_note_status e) eqn:Hn; simpl.
  2:{ split; [split|]; [discriminate | intros [? _]; discriminate | discriminate]. }
  destruct e as [s d1 d2|]; [|discriminate]. simpl.
  destruct (_notes m !! N.to_nat d1) as [surface|] eqn:Hl.
  - destruct (ControlSurface_match g t (StandardEvent s d1 d2) surface)
      as [r s'] eqn:Hmatch. simpl.
    assert (r <> Raise IndexError) as Hr.
    { intros ->. pose proof (match_raise_inv g t (StandardEvent s d1 d2) surface
                               IndexError) as Hinv.
      rewrite Hmatch in Hinv. destruct (Hinv eq_refl) as [? _]. discriminate. }
    apply lookup_lt_Some in Hl.
    split; [split|]; [contradiction| |contradiction].
    intros (_ & d & [= <-] & Hd). lia.
  - simpl. split; [|auto]. split; [|reflexivity].
    intros _. split; [reflexivity|]. exists d1. split; [reflexivity|].
    apply lookup_ge_None in Hl. lia.
Qed.

Lemma note_index_error_iff_witness :
  fst (fst (NoteMatcher_matchEvent Demo.globals 1.0 Scenario.note_on_200
              (NoteMatcher_init Demo.Note))) = Raise IndexError.
Proof.
  apply (note_index_error_iff Demo.Note Demo.globals 1.0 Scenario.note_on_200
           (NoteMatcher_init Demo.Note) (NoteMatcher_init_wf Demo.Note)).
  split; [reflexivity|]. exists 200%N. split; [reflexivity|]. lia.
Defined.

(** [NoteAfterTouchMatcher.matchEvent] invokes [match] on at most one pooled
    surface, the one at index [event.data1], and only for a standard event
    whose status has high nibble 0xA; for any other event it returns [None],
    invokes nothing and leaves the matcher as it was; surfaces at other
    indices never change, and the pool keeps its size. *)
Theorem aftertouch_dispatch `{Collaborators} (NoteAfterTouch : nat -> ControlSurface)
    g t e (m : NoteAfterTouchMatcher) :
  NoteAfterTouchMatcher_wf NoteAfterTouch m ->
  let out := NoteAfterTouchMatcher_matchEvent g t e m in
  let r := fst (fst out) in
  let m' := snd (fst out) in
  let calls := snd out in
  (is_aftertouch_status e = false -> r = Ok None /\ m' = m /\ calls = []) /\
  (calls = [] \/
   exists d, data1 e = Some d /\ is_aftertouch_status e = true /\
             calls = [N.to_nat d]) /\
  (forall d, is_aftertouch_status e = true -> data1 e = Some d -> (d < 128)%N ->
     exists surface, _touches m !! N.to_nat d = Some surface /\
       calls = [N.to_nat d] /\
       r = fst (ControlSurface_match g t e surface) /\
       _touches m' !! N.to_nat d = Some (snd (ControlSurface_match g t e surface))) /\
  (forall i, data1 e <> Some (N.of_nat i) -> _touches m' !! i = _touches m !! i) /\
  NoteAfterTouchMatcher_wf NoteAfterTouch m'.
Proof.
  intros [Hpat Hlen]. unfold NoteAfterTouchMatcher_matchEvent.
  assert (isEventStandard e && matchEvent (_touch_pattern m) e
          = is_aftertouch_status e)
    as -> by (rewrite Hpat; apply touch_pattern_is_aftertouch_status).
  destruct (is_aftertouch_status e) eqn:Hn; simpl.
  2:{ repeat split; auto. intros; discriminate. }
  destruct e as [s d1 d2|]; [|discriminate]. simpl.
  destruct (_touches m !! N.to_nat d1) as [surface|] eqn:Hl.
  - destruct (ControlSurface_match g t (StandardEvent s d1 d2) surface)
      as [r s'] eqn:Hmatch. simpl.
    split; [discriminate|]. split; [right; eauto|]. split; [|split].
    + intros d _ [= <-] _. exists surface. rewrite Hmatch. simpl.
      repeat split; auto. apply list_lookup_insert_eq.
      now apply lookup_lt_Some in Hl.
    + intros i Hi. apply list_lookup_insert_ne. intros <-.
      apply Hi. now rewrite N2Nat.id.
    + split; simpl; [assumption|]. now rewrite length_insert.
  - simpl. split; [discriminate|]. split; [left; reflexivity|].
    split; [|split; [reflexivity|split; assumption]].
    intros d _ [= <-] Hd. apply lookup_ge_None in Hl. lia.
Qed.

Lemma aftertouch_dispatch_witness :
  snd (NoteAfterTouchMatcher_matchEvent Demo.globals 1.0 Scenario.aftertouch_60
         (NoteAfterTouchMatcher_init Scenario.NoteAfterTouch)) = [60%nat] /\
  NoteAfterTouchMatcher_matchEvent Demo.globals 1.0 Demo.note_on_60
    (NoteAfterTouchMatcher_init Scenario.NoteAfterTouch)
  = (Ok None, NoteAfterTouchMatcher_init Scenario.NoteAfterTouch, []).
Proof.
  split.
  - pose proof (aftertouch_dispatch Scenario.NoteAfterTouch Demo.globals 1.0
                  Scenario.aftertouch_60
                  (NoteAfterTouchMatcher_init Scenario.NoteAfterTouch)
                  (NoteAfterTouchMatcher_init_wf Scenario.NoteAfterTouch))
      as (_ & _ & Hhit & _).
    destruct (Hhit 60%N eq_refl eq_refl eq_refl) as (_ & _ & Hcalls & _).
    exact Hcalls.
  - pose proof (aftertouch_dispatch Scenario.NoteAfterTouch Demo.globals 1.0
                  Demo.note_on_60
                  (NoteAfterTouchMatcher_init Scenario.NoteAfterTouch)
                  (NoteAfterTouchMatcher_init_wf Scenario.NoteAfterTouch))
      as (Hmiss & _).
    destruct (Hmiss eq_refl) as (Hr & Hm & Hc).
    destruct (NoteAfterTouchMatcher_matchEvent _ _ _ _) as [[r m'] calls].
    simpl in Hr, Hm, Hc. now subst.
Defined.

(** The two matchers never both react to one event: whatever the event, the
    note matcher or the after-touch matcher returns [None] without invoking a
    surface or changing. *)
Theorem note_and_aftertouch_exclusive `{Collaborators}
    (Note NoteAfterTouch : nat -> ControlSurface) g t e
    (notes : NoteMatcher) (touches : NoteAfterTouchMatcher) :
  NoteMatcher_wf Note notes ->
  NoteAfterTouchMatcher_wf NoteAfterTouch touches ->
  NoteMatcher_matchEvent g t e notes = (Ok None, notes, []) \/
  NoteAfterTouchMatcher_matchEvent g t e touches = (Ok None, touches, []).
Proof.
  intros [Hn _] [Ht _].
  unfold NoteMatcher_matchEvent, NoteAfterTouchMatcher_matchEvent.
  assert (isEventStandard e && matchEvent (_note_pattern notes) e
          = is_note_status e)
    as -> by (rewrite Hn; apply note_pattern_is_note_status).
  assert (isEventStandard e && matchEvent (_touch_pattern touches) e
          = is_aftertouch_status e)
    as -> by (rewrite Ht; apply touch_pattern_is_aftertouch_status).
  destruct (is_note_status e) eqn:E; [|left; reflexivity].
  right. now rewrite (note_status_not_aftertouch e E).
Qed.

Lemma note_and_aftertouch_exclusive_witness :
  NoteMatcher_matchEvent Demo.globals 1.0 Scenario.aftertouch_60
    (NoteMatcher_init Demo.Note)
  = (Ok None, NoteMatcher_init Demo.Note, []) \/
  NoteAfterTouchMatcher_matchEvent Demo.globals 1.0 Scenario.aftertouch_60
    (NoteAfterTouchMatcher_init Scenario.NoteAfterTouch)
  = (Ok None, NoteAfterTouchMatcher_init Scenario.NoteAfterTouch, []).
Proof.
  exact (note_and_aftertouch_exclusive Demo.Note Scenario.NoteAfterTouch
           Demo.globals 1.0 Scenario.aftertouch_60 _ _
           (NoteMatcher_init_wf Demo.Note)
           (NoteAfterTouchMatcher_init_wf Scenario.NoteAfterTouch)).
Defined.

(** The note matcher's [tick] ticks no surface, so nothing the matcher does
    acknowledges an update: a pooled note that needs an update still needs it
    after every history of [matchEvent] and [tick] calls. *)
Theorem note_updates_stay_pending `{Collaborators} ops (m : NoteMatcher) i
    (s : ControlSurface) :
  getControls m !! i = Some s ->
  needs_update s = true ->
  exists s', getControls (NoteMatcher_perform_all ops m) !! i = Some s' /\
             needs_update s' = true.
Proof.
  unfold getControls, needs_update, NoteMatcher_perform_all.
  revert m s. induction ops as [|op ops IH]; intros m s Hl Hneeds; simpl; [eauto|].
  destruct (NoteMatcher_perform_pool op m) as [_ [Hsame|(j & sj & g & t & e & Hj & Hins)]].
  - apply (IH _ s); [now rewrite Hsame | exact Hneeds].
  - destruct (decide (j = i)) as [->|Hne].
    + rewrite Hl in Hj. injection Hj as <-.
      apply (IH _ (snd (ControlSurface_match g t e s))).
      * rewrite Hins. apply list_lookup_insert_eq. now apply lookup_lt_Some in Hl.
      * now apply match_keeps_needs_update.
    + apply (IH _ s); [|exact Hneeds].
      rewrite Hins. now rewrite list_lookup_insert_ne.
Qed.

Lemma note_updates_stay_pending_witness :
  let m := snd (fst (NoteMatcher_matchEvent Demo.globals 1.0 Demo.note_on_60
                       (NoteMatcher_init Demo.Note))) in
  exists s', getControls
               (NoteMatcher_perform_all [note_tick false; note_tick true] m)
             !! 60%nat = Some s' /\
             needs_update s' = true.
Proof.
  exact (note_updates_stay_pending (H := Demo.collaborators)
           [note_tick false; note_tick true]
           (snd (fst (NoteMatcher_matchEvent Demo.globals 1.0 Demo.note_on_60
                        (NoteMatcher_init Demo.Note))))
           60%nat
           (snd (ControlSurface_match Demo.globals 1.0 Demo.note_on_60
                   (Demo.Note 60)))
           eq_refl eq_refl).
Defined.

(** ** Resets in a row *)

Section DriverFacts.
Context `{Collaborators}.

(** What one wrapped reset does to the globals. *)
Lemma wrapped_reset_globals reason g :
  snd (catchContextResetException (resetContext reason) g)
  = {| _context := Some {| ctx_id := next_id g; settings := Settings_new |};
       next_id := S (next_id g);
       logged := logged g ++ [{| log_category := "bootstrap.context.reset";
                                 log_message :=
                                   "Device context reset with reason: " ++ reason;
                                 log_verbosity := WARNING |}] |}.
Proof. reflexivity. Qed.

Lemma drive_resets_globals reasons g :
  next_id (drive_resets reasons g) = (next_id g + length reasons)%nat /\
  logged (drive_resets reasons g)
  = logged g ++ map (fun reason =>
                       {| log_category := "bootstrap.context.reset";
                          log_message :=
                            "Device context reset with reason: " ++ reason;
                          log_verbosity := WARNING |}) reasons /\
  (reasons <> [] ->
   _context (drive_resets reasons g)
   = Some {| ctx_id := (next_id g + length reasons - 1)%nat;
             settings := Settings_new |}).
Proof.
  revert g. induction reasons as [|reason reasons IH]; intros g.
  - simpl. rewrite Nat.add_0_r, app_nil_r. split; [reflexivity|].
    split; [reflexivity|]. intros Hne. now destruct Hne.
  - change (drive_resets (reason :: reasons) g)
      with (drive_resets reasons
              (snd (catchContextResetException (resetContext reason) g))).
    destruct (IH (snd (catchContextResetException (resetContext reason) g)))
      as (Hid & Hlog & Hctx).
    rewrite wrapped_reset_globals in Hid, Hlog, Hctx |- *.
    cbn [next_id logged] in Hid, Hlog, Hctx.
    split; [rewrite Hid; simpl; lia|]. split.
    + rewrite Hlog, <- app_assoc. reflexivity.
    + intros _. destruct reasons as [|reason' reasons'].
      * cbn [drive_resets fold_left _context length]. do 3 f_equal. lia.
      * rewrite Hctx by discriminate. do 3 f_equal. simpl. lia.
Qed.

End DriverFacts.

(** After any number of resets, each caught by the decorator, a context is
    installed, its identity is the number of resets so far (so no two resets
    share a context, and none shares the one of the import), its settings are
    the initial ones, and the log holds one entry per reset, in order, each
    with the reset's reason, under ["bootstrap.context.reset"], at level
    [WARNING]. *)
Theorem resets_in_a_row `{Collaborators} (reasons : list string) :
  let g := drive_resets reasons globals_after_import in
  getContext g
  = (Ok {| ctx_id := length reasons; settings := Settings_new |}, g) /\
  logged g
  = map (fun reason =>
           {| log_category := "bootstrap.context.reset";
              log_message := "Device context reset with reason: " ++ reason;
              log_verbosity := WARNING |}) reasons /\
  Globals_wf g.
Proof.
  intros g.
  destruct (drive_resets_globals reasons globals_after_import)
    as (Hid & Hlog & Hctx). fold g in Hid, Hlog, Hctx. simpl in Hid, Hlog.
  assert (_context g = Some {| ctx_id := length reasons; settings := Settings_new |})
    as Hlive.
  { destruct reasons as [|reason reasons]; [reflexivity|].
    rewrite Hctx by discriminate.
    replace (next_id globals_after_import + length (reason :: reasons) - 1)%nat
      with (length (reason :: reasons)) by (simpl; lia).
    reflexivity. }
  split; [|split].
  - unfold getContext. now rewrite Hlive.
  - exact Hlog.
  - intros c Hc. rewrite Hlive in Hc. injection Hc as <-. simpl. lia.
Qed.

(** The decorator composes: decorating twice is decorating once; a decorated
    function never raises the reset signal; and code that follows a decorated
    reset within the same call does run, on the globals holding the new
    context. *)
Theorem catch_composes `{Collaborators} {A B : Type} (func : M A) (rest : M B)
    (reason : string) (g : Globals) :
  catchContextResetException (catchContextResetException func) g
  = catchContextResetException func g /\
  (forall r, fst (catchContextResetException func g)
             <> Raise (ContextResetException r)) /\
  (catchContextResetException (resetContext reason) ;; rest) g
  = rest (snd (resetContext reason g)).
Proof.
  split; [|split].
  - unfold catchContextResetException.
    destruct (func g) as [[a|e] g']; [reflexivity|]. now destruct e.
  - intros r. unfold catchContextResetException.
    destruct (func g) as [[a|e] g']; [discriminate|].
    destruct e; simpl; discriminate.
  - reflexivity.
Qed.

(** ** The logging hierarchy and the version string *)

(** Every entry that resets put in the log carries a category which, split at
    its dots, names a path of nested keys of [HIERARCHY]. *)
Theorem reset_log_categories_in_hierarchy `{Collaborators} (reasons : list string) :
  Forall (fun entry =>
            in_hierarchy HIERARCHY (split_on "." (log_category entry)) = true)
         (logged (drive_resets reasons globals_after_import)).
Proof.
  destruct (drive_resets_globals reasons globals_after_import) as (_ & -> & _).
  simpl. apply Forall_forall. intros entry Hin.
  apply list_elem_of_In, in_map_iff in Hin as (reason & <- & _). reflexivity.
Qed.

Section VersionFacts.

Lemma split_on_not_nil sep s : split_on sep s <> [].
Proof.
  destruct s as [|c s]; simpl; [discriminate|].
  destruct (Ascii.eqb c sep); [discriminate|].
  destruct (split_on sep s); discriminate.
Qed.

(** A word without the separator, followed by the separator: the word is the
    first piece. *)
Lemma split_on_word_sep sep w rest :
  split_on sep w = [w] ->
  split_on sep (w ++ String sep rest) = w :: split_on sep rest.
Proof.
  induction w as [|c w IH]; simpl.
  - intros _. now rewrite Ascii.eqb_refl.
  - destruct (Ascii.eqb c sep) eqn:E; [discriminate|].
    destruct (split_on sep w) as [|word words] eqn:Hw.
    { now destruct (split_on_not_nil sep w). }
    intros [= -> ->]. now rewrite (IH eq_refl).
Qed.

Lemma split_on_concat sep (words : list string) :
  words <> [] ->
  Forall (fun w => split_on sep w = [w]) words ->
  split_on sep (String.concat (String sep EmptyString) words) = words.
Proof.
  intros Hne Hwords. induction Hwords as [|w words Hw Hwords IH];
    [now destruct Hne|].
  destruct words as [|w' words']; [exact Hw|].
  change (String.concat (String sep EmptyString) (w :: w' :: words'))
    with (String.append w
            (String sep (String.concat (String sep EmptyString) (w' :: words')))).
  rewrite (split_on_word_sep _ _ _ Hw), IH by discriminate. reflexivity.
Qed.

Lemma digits_without_dot d :
  split_on "." (NilEmpty.string_of_uint d) = [NilEmpty.string_of_uint d].
Proof. induction d; simpl; try rewrite IHd; reflexivity. Qed.

Lemma py_str_without_dot z : split_on "." (py_str z) = [py_str z].
Proof.
  unfold py_str. destruct z as [|p|p]; simpl; [reflexivity| |].
  - destruct (Pos.to_uint p) eqn:E; simpl; try reflexivity;
      rewrite digits_without_dot; reflexivity.
  - destruct (Pos.to_uint p) eqn:E; simpl; try reflexivity;
      rewrite digits_without_dot; reflexivity.
Qed.

Lemma py_int_py_str z : py_int (py_str z) = Some z.
Proof.
  unfold py_int, py_str. rewrite NilZero.isi.
  - simpl. now rewrite DecimalZ.of_to.
  - destruct z as [|p|p]; simpl; try discriminate.
    intros [= E]. now apply (Unsigned.to_uint_nonnil p).
  - destruct z as [|p|p]; simpl; try discriminate.
    intros [= E]. now apply (Unsigned.to_uint_nonnil p).
Qed.

End VersionFacts.

(** The version string can be read back: for any non-empty version tuple,
    splitting [".".join(map(str, version))] at the dots and reading each piece
    with [int] gives the tuple's components, in order. *)
Theorem version_string_round_trip (version : list Z) :
  version <> [] ->
  map py_int (split_on "." (version_string version)) = map Some version.
Proof.
  intros Hne. unfold version_string.
  rewrite split_on_concat.
  - rewrite map_map. apply map_ext. intros z. apply py_int_py_str.
  - destruct version; [now destruct Hne|discriminate].
  - apply Forall_forall. intros w Hin.
    apply list_elem_of_In, in_map_iff in Hin as (z & <- & _).
    apply py_str_without_dot.
Qed.

(** On the module's constants: the string is ["0.0.1"], and its pieces are
    [VERSION_MAJOR], [VERSION_MINOR] and [VERSION_REVISION]. *)
Lemma version_string_round_trip_witness :
  getVersionString = "0.0.1" /\
  map py_int (split_on "." getVersionString)
  = [VERSION_MAJOR; VERSION_MINOR; VERSION_REVISION].
Proof.
  split; [reflexivity|].
  exact (version_string_round_trip VERSION ltac:(discriminate)).
Defined.

(** ** The managers given to [__init__] *)

(** [__init__] tests each manager argument for [None] the wrong way round
    for storing it: a surface constructed without a manager holds [None], one
    constructed with a manager holds the dummy manager, and no history changes
    that; so a manager that is not the dummy is never the one the surface
    holds. *)
Theorem supplied_managers_are_replaced `{Collaborators} cl pattern strategy
    coordinate annotation_manager color_manager value_manager ops :
  let s := perform_all ops
             (ControlSurface_init cl pattern strategy coordinate
                annotation_manager color_manager value_manager) in
  __annotation_manager s
  = match annotation_manager with
    | Some _ => Some DummyAnnotationManager
    | None => None
    end /\
  __color_manager s
  = match color_manager with Some _ => Some DummyColorManager | None => None end /\
  __value_manager s
  = match value_manager with Some _ => Some DummyValueManager | None => None end /\
  (forall n, __annotation_manager s <> Some (AnnotationManager n)) /\
  (forall n, __color_manager s <> Some (ColorManager n)) /\
  (forall n, __value_manager s <> Some (ValueManager n)).
Proof.
  intros s.
  assert (forall ops' (s0 : ControlSurface),
            __annotation_manager (perform_all ops' s0) = __annotation_manager s0 /\
            __color_manager (perform_all ops' s0) = __color_manager s0 /\
            __value_manager (perform_all ops' s0) = __value_manager s0) as Hkeep.
  { unfold perform_all. induction ops' as [|op ops' IH]; intros s0; simpl; [auto|].
    destruct (IH (perform op s0)) as (-> & -> & ->).
    destruct (perform_keeps_configuration op s0) as (_ & _ & _ & _ & ? & ? & ?).
    auto. }
  destruct (Hkeep ops (ControlSurface_init cl pattern strategy coordinate
                         annotation_manager color_manager value_manager))
    as (Ha & Hc & Hv).
  fold s in Ha, Hc, Hv. rewrite Ha, Hc, Hv. simpl.
  destruct annotation_manager, color_manager, value_manager;
    repeat split; intros; discriminate.
Qed.
